(** * macro86: behavioural models of a static RAM, an EEPROM and a
      transparent latch

    Shallow embedding of [source/SRam.py], [source/sram.py],
    [source/eeprom.py], [source/TransparentLatch.py] and
    [source/transparent_latch.py].

    Every device is an nMigen [Elaboratable]: its constructor creates the
    port signals (and, for the memories, the cell array), and [elaborate]
    describes a combinational domain and one local clock domain driven by a
    control line.  A signal is a [Z] together with its width; every
    assignment [.eq] masks the assigned value to the width of its target.
    A simulation step is: the test bench assigns the input ports, the local
    clock domain fires when its clock line saw the configured edge, and the
    combinational domain settles. *)

From Stdlib Require Import ZArith Lia String.
From stdpp Require Import base list.

Local Open Scope Z_scope.

(** ** Python exceptions and results *)

Inductive exn : Type :=
| AssertionError
| NameError (name : string).

Inductive result (A : Type) : Type :=
| Ok (a : A)
| Raise (e : exn).

Arguments Ok {A} a.
Arguments Raise {A} e.

Definition bind {A B : Type} (r : result A) (k : A -> result B) : result B :=
  match r with
  | Ok a => k a
  | Raise e => Raise e
  end.

(** [assert c] followed by the rest of the body. *)
Definition py_assert {A : Type} (c : bool) (k : result A) : result A :=
  if c then k else Raise AssertionError.

Notation "x <- r ;; k" := (bind r (fun x => k))
  (at level 100, r at next level, k at level 200, right associativity).
Notation "'assert' c ;; k" := (py_assert c k)
  (at level 100, c at next level, k at level 200, right associativity).

(** Name resolution in the globals of a module file. *)
Definition lookup_global {A : Type} (globals : list string) (name : string)
    (k : result A) : result A :=
  if existsb (String.eqb name) globals then k else Raise (NameError name).

(** ** The nMigen constructs the devices are written with *)

Module nmigen.

(** [Signal(w)]: the reset value is 0 unless given. *)
Definition Signal (w : Z) : Z := 0.

(** [target.eq(v)] on an unsigned target of width [w]. *)
Definition eq_ (w v : Z) : Z := Z.land v (Z.ones w).

(** [~x] on an unsigned operand of width [w]. *)
Definition inv (w x : Z) : Z := Z.land (Z.lnot x) (Z.ones w).

(** [m.If(c)] tests [c] for being non-zero. *)
Definition truthy (c : Z) : bool := negb (c =? 0).

(** [Mux(sel, a, b)]. *)
Definition Mux (sel a b : Z) : Z := if truthy sel then a else b.

(** [Array(elems)[i]] as a value: an index past the end selects the last
    element. *)
Definition Array_get (elems : list Z) (i : Z) : Z :=
  match elems !! Z.to_nat i with
  | Some v => v
  | None => List.last elems 0
  end.

(** [Array(elems)[i].eq(v)]: element [i] is assigned, the last one when
    [i] is past the end. *)
Definition Array_set (elems : list Z) (i v : Z) : list Z :=
  if (Z.to_nat i <? length elems)%nat
  then <[Z.to_nat i := v]> elems
  else <[Nat.pred (length elems) := v]> elems.

(** [ClockDomain(..., clk_edge=...)]. *)
Inductive clk_edge : Type := pos | neg.

(** A clock domain fires when its clock signal changed and the new value
    is the one its edge ends on. *)
Definition fires (e : clk_edge) (old new : Z) : bool :=
  negb (old =? new) && (new =? match e with pos => 1 | neg => 0 end).

(** What [formal] hands to the back end. *)
Inductive property : Type := Cover | Assert.

Record design : Type := Design {
  submodules : list string;
  properties : list property;
  design_ports : list string
}.

End nmigen.

Import nmigen.

(** ** [source/eeprom.py] *)

Module EEProm.

Record t : Type := mk {
  a : Z;
  io_in : Z;
  io_out : Z;
  _oe : Z;
  _we : Z;
  a_bits : Z;
  io_bits : Z;
  __mem : list Z
}.

Definition __init__ (data_bits addr_bits : Z) : result t :=
  assert (data_bits >? 0) ;;
  assert (addr_bits >? 0) ;;
  assert (addr_bits <=? 32) ;;
  Ok {| a := Signal addr_bits;
        io_in := Signal data_bits;
        io_out := Signal data_bits;
        _oe := Signal 1;
        _we := Signal 1;
        a_bits := addr_bits;
        io_bits := data_bits;
        __mem := replicate (Z.to_nat (2 ^ addr_bits)) (Signal data_bits) |}.

(** The values a test bench assigns to the input ports in one step. *)
Record stimulus : Type := Stimulus {
  to_a : Z;
  to_io_in : Z;
  to_oe : Z;
  to_we : Z
}.

Definition drive (self : t) (i : stimulus) : t :=
  {| a := eq_ (a_bits self) (to_a i);
     io_in := eq_ (io_bits self) (to_io_in i);
     io_out := io_out self;
     _oe := eq_ 1 (to_oe i);
     _we := eq_ 1 (to_we i);
     a_bits := a_bits self;
     io_bits := io_bits self;
     __mem := __mem self |}.

(** [m.d.we_clk += self.__mem[self.a].eq(self.io_in)] *)
Definition we_clk (self : t) : t :=
  {| a := a self;
     io_in := io_in self;
     io_out := io_out self;
     _oe := _oe self;
     _we := _we self;
     a_bits := a_bits self;
     io_bits := io_bits self;
     __mem := Array_set (__mem self) (a self)
                (eq_ (io_bits self) (io_in self)) |}.

(** [m.d.comb += self.io_out.eq(0)], overridden under
    [m.If(~self._oe & self._we)]. *)
Definition comb (self : t) : t :=
  {| a := a self;
     io_in := io_in self;
     io_out :=
       if truthy (Z.land (inv 1 (_oe self)) (_we self))
       then eq_ (io_bits self) (Array_get (__mem self) (a self))
       else eq_ (io_bits self) 0;
     _oe := _oe self;
     _we := _we self;
     a_bits := a_bits self;
     io_bits := io_bits self;
     __mem := __mem self |}.

(** One step of the elaborated module: [we_clk] is a [pos] edge domain
    clocked by [_we]. *)
Definition step (self : t) (i : stimulus) : t :=
  let driven := drive self i in
  comb (if fires pos (_we self) (_we driven) then we_clk driven else driven).

Definition run (self : t) (tr : list stimulus) : t := fold_left step tr self.

Definition ports : list string :=
  ["a"; "io_in"; "io_out"; "_oe"; "_we"]%string.

(** [formal] is [assert False]; a body that ends without [return] gives
    [None]. *)
Definition formal : result (option design) :=
  assert false ;; Ok None.

Definition wf (self : t) : bool :=
  (0 <? io_bits self) && (0 <? a_bits self)
  && (0 <=? a self) && (a self <? 2 ^ a_bits self)
  && (0 <=? io_in self) && (io_in self <? 2 ^ io_bits self)
  && (0 <=? io_out self) && (io_out self <? 2 ^ io_bits self)
  && (0 <=? _oe self) && (_oe self <? 2)
  && (0 <=? _we self) && (_we self <? 2)
  && (length (__mem self) =? Z.to_nat (2 ^ a_bits self))%nat
  && forallb (fun c => (0 <=? c) && (c <? 2 ^ io_bits self)) (__mem self).

End EEProm.

(** ** [source/SRam.py] *)

Module SRam.

Record t : Type := mk {
  addr : Z;
  data_in : Z;
  data_out : Z;
  _oe : Z;
  _we : Z;
  data_bits : Z;
  addr_bits : Z;
  __mem : list Z
}.

(** The constructor, with the bound of its third assertion left open:
    [SRam.py] has 32 there, [sram.py] has 16. *)
Definition init_with (ceiling data_bits addr_bits : Z) : result t :=
  assert (data_bits >? 0) ;;
  assert (addr_bits >? 0) ;;
  assert (addr_bits <=? ceiling) ;;
  Ok {| addr := Signal addr_bits;
        data_in := Signal data_bits;
        data_out := Signal data_bits;
        _oe := Signal 1;
        _we := Signal 1;
        data_bits := data_bits;
        addr_bits := addr_bits;
        __mem := replicate (Z.to_nat (2 ^ addr_bits)) (Signal data_bits) |}.

Definition __init__ (data_bits addr_bits : Z) : result t :=
  init_with 32 data_bits addr_bits.

(** The values a test bench assigns to the input ports in one step. *)
Record stimulus : Type := Stimulus {
  to_addr : Z;
  to_data_in : Z;
  to_oe : Z;
  to_we : Z
}.

Definition drive (self : t) (i : stimulus) : t :=
  {| addr := eq_ (addr_bits self) (to_addr i);
     data_in := eq_ (data_bits self) (to_data_in i);
     data_out := data_out self;
     _oe := eq_ 1 (to_oe i);
     _we := eq_ 1 (to_we i);
     data_bits := data_bits self;
     addr_bits := addr_bits self;
     __mem := __mem self |}.

(** [m.d.we_clk += self.__mem[self.addr].eq(self.data_in)] *)
Definition we_clk (self : t) : t :=
  {| addr := addr self;
     data_in := data_in self;
     data_out := data_out self;
     _oe := _oe self;
     _we := _we self;
     data_bits := data_bits self;
     addr_bits := addr_bits self;
     __mem := Array_set (__mem self) (addr self)
                (eq_ (data_bits self) (data_in self)) |}.

(** [m.d.comb += self.data_out.eq(0)], overridden under
    [m.If(~self._oe & self._we)]. *)
Definition comb (self : t) : t :=
  {| addr := addr self;
     data_in := data_in self;
     data_out :=
       if truthy (Z.land (inv 1 (_oe self)) (_we self))
       then eq_ (data_bits self) (Array_get (__mem self) (addr self))
       else eq_ (data_bits self) 0;
     _oe := _oe self;
     _we := _we self;
     data_bits := data_bits self;
     addr_bits := addr_bits self;
     __mem := __mem self |}.

(** One step of the elaborated module: [we_clk] is a [pos] edge domain
    clocked by [_we]. *)
Definition step (self : t) (i : stimulus) : t :=
  let driven := drive self i in
  comb (if fires pos (_we self) (_we driven) then we_clk driven else driven).

Definition run (self : t) (tr : list stimulus) : t := fold_left step tr self.

Definition ports : list string :=
  ["addr"; "data_in"; "data_out"; "_oe"; "_we"]%string.

(** Names bound at the top level of [SRam.py]: its imports and the class. *)
Definition globals : list string :=
  ["List"; "Tuple"; "Array"; "ClockDomain"; "Elaboratable"; "Module";
   "Mux"; "Signal"; "Platform"; "Simulator"; "Delay"; "Assert"; "Assume";
   "Cover"; "Fell"; "Past"; "Rose"; "Stable"; "main"; "SRam"]%string.

(** The body of [formal], run in a module whose globals are [g]: it
    instantiates [EEProm(16, 4)] as submodule [rom], adds no property,
    and returns the module with the ports of [rom]. *)
Definition formal_in (g : list string) : result (option design) :=
  lookup_global g "Module"
    (lookup_global g "EEProm"
       (rom <- EEProm.__init__ 16 4 ;;
        Ok (Some (Design ["rom"%string] [] EEProm.ports)))).

Definition formal : result (option design) := formal_in globals.

Definition wf (self : t) : bool :=
  (0 <? data_bits self) && (0 <? addr_bits self)
  && (0 <=? addr self) && (addr self <? 2 ^ addr_bits self)
  && (0 <=? data_in self) && (data_in self <? 2 ^ data_bits self)
  && (0 <=? data_out self) && (data_out self <? 2 ^ data_bits self)
  && (0 <=? _oe self) && (_oe self <? 2)
  && (0 <=? _we self) && (_we self <? 2)
  && (length (__mem self) =? Z.to_nat (2 ^ addr_bits self))%nat
  && forallb (fun c => (0 <=? c) && (c <? 2 ^ data_bits self)) (__mem self).

End SRam.

(** ** [source/sram.py]

    The class body is that of [SRam.py] from the port declarations to
    [ports]; the constructor's bound is 16 and [formal] is [assert False]. *)

Module sram.

Definition __init__ (data_bits addr_bits : Z) : result SRam.t :=
  SRam.init_with 16 data_bits addr_bits.

Definition step : SRam.t -> SRam.stimulus -> SRam.t := SRam.step.

Definition formal : result (option design) :=
  assert false ;; Ok None.

End sram.

(** ** [source/TransparentLatch.py] *)

Module TransparentLatch.

Record t : Type := mk {
  d : Z;
  q : Z;
  le : Z;
  _oe : Z;
  bits : Z
}.

Definition __init__ (bits : Z) : result t :=
  assert (bits >? 0) ;;
  Ok {| d := Signal bits;
        q := Signal bits;
        le := Signal 1;
        _oe := Signal 1;
        bits := bits |}.

(** The elaborated module: the device and the register [elaborate]
    creates, [Signal(self.bits, reset=0, reset_less=True)]. *)
Record module : Type := Module_ {
  self : t;
  internal_reg : Z
}.

Definition elaborate (self : t) : module :=
  {| self := self; internal_reg := 0 |}.

Record stimulus : Type := Stimulus {
  to_d : Z;
  to_le : Z;
  to_oe : Z
}.

Definition drive (m : module) (i : stimulus) : module :=
  {| self := {| d := eq_ (bits (self m)) (to_d i);
                q := q (self m);
                le := eq_ 1 (to_le i);
                _oe := eq_ 1 (to_oe i);
                bits := bits (self m) |};
     internal_reg := internal_reg m |}.

(** [m.d.le_clk += internal_reg.eq(self.d)] *)
Definition le_clk (m : module) : module :=
  {| self := self m;
     internal_reg := eq_ (bits (self m)) (d (self m)) |}.

(** [m.d.comb += self.q.eq(Mux(self._oe, 0, internal_reg))], overridden
    under [m.If(self.le & ~self._oe)] by [self.q.eq(self.d)]. *)
Definition comb (m : module) : module :=
  let s := self m in
  {| self := {| d := d s;
                q := if truthy (Z.land (le s) (inv 1 (_oe s)))
                     then eq_ (bits s) (d s)
                     else eq_ (bits s) (Mux (_oe s) 0 (internal_reg m));
                le := le s;
                _oe := _oe s;
                bits := bits s |};
     internal_reg := internal_reg m |}.

(** One step: [le_clk] is a [neg] edge domain clocked by [le]. *)
Definition step (m : module) (i : stimulus) : module :=
  let driven := drive m i in
  comb (if fires neg (le (self m)) (le (self driven))
        then le_clk driven else driven).

Definition run (m : module) (tr : list stimulus) : module :=
  fold_left step tr m.

Definition ports : list string := ["d"; "q"; "le"; "_oe"]%string.

(** [formal] builds a module around [TransparentLatch(16)] with one
    [Cover] and three [Assert]s. *)
Definition formal : result (option design) :=
  latch <- __init__ 16 ;;
  Ok (Some (Design ["latch"%string] [Cover; Assert; Assert; Assert] ports)).

Definition wf (m : module) : bool :=
  let s := self m in
  (0 <? bits s)
  && (0 <=? d s) && (d s <? 2 ^ bits s)
  && (0 <=? q s) && (q s <? 2 ^ bits s)
  && (0 <=? le s) && (le s <? 2)
  && (0 <=? _oe s) && (_oe s <? 2)
  && (0 <=? internal_reg m) && (internal_reg m <? 2 ^ bits s).

End TransparentLatch.

(** ** [source/transparent_latch.py]

    The constructor and [elaborate] are those of [TransparentLatch.py];
    [sim] and [formal] are [assert False]. *)

Module transparent_latch.

Definition __init__ : Z -> result TransparentLatch.t :=
  TransparentLatch.__init__.

Definition elaborate : TransparentLatch.t -> TransparentLatch.module :=
  TransparentLatch.elaborate.

Definition formal : result (option design) :=
  assert false ;; Ok None.

End transparent_latch.

(** ** The RAM and the EEPROM side by side

    The two classes name their ports differently: [addr], [data_in],
    [data_out] against [a], [io_in], [io_out]. *)

Module Renaming.

Definition as_EEProm (m : SRam.t) : EEProm.t :=
  {| EEProm.a := SRam.addr m;
     EEProm.io_in := SRam.data_in m;
     EEProm.io_out := SRam.data_out m;
     EEProm._oe := SRam._oe m;
     EEProm._we := SRam._we m;
     EEProm.a_bits := SRam.addr_bits m;
     EEProm.io_bits := SRam.data_bits m;
     EEProm.__mem := SRam.__mem m |}.

Definition as_SRam (r : EEProm.t) : SRam.t :=
  {| SRam.addr := EEProm.a r;
     SRam.data_in := EEProm.io_in r;
     SRam.data_out := EEProm.io_out r;
     SRam._oe := EEProm._oe r;
     SRam._we := EEProm._we r;
     SRam.data_bits := EEProm.io_bits r;
     SRam.addr_bits := EEProm.a_bits r;
     SRam.__mem := EEProm.__mem r |}.

Definition rename (i : SRam.stimulus) : EEProm.stimulus :=
  {| EEProm.to_a := SRam.to_addr i;
     EEProm.to_io_in := SRam.to_data_in i;
     EEProm.to_oe := SRam.to_oe i;
     EEProm.to_we := SRam.to_we i |}.

Definition unrename (j : EEProm.stimulus) : SRam.stimulus :=
  {| SRam.to_addr := EEProm.to_a j;
     SRam.to_data_in := EEProm.to_io_in j;
     SRam.to_oe := EEProm.to_oe j;
     SRam.to_we := EEProm.to_we j |}.

End Renaming.

Import Renaming.

(** ** Write history of a cell

    [written a m tr]: some step of [tr], run from [m], fires [we_clk] while
    the address port holds [a]. *)

Fixpoint SRam_written (a : Z) (m : SRam.t) (tr : list SRam.stimulus) : bool :=
  match tr with
  | [] => false
  | i :: tr' =>
      (fires pos (SRam._we m) (SRam._we (SRam.drive m i))
       && (SRam.addr (SRam.drive m i) =? a))
      || SRam_written a (SRam.step m i) tr'
  end.

Fixpoint EEProm_written (a : Z) (r : EEProm.t) (tr : list EEProm.stimulus) : bool :=
  match tr with
  | [] => false
  | j :: tr' =>
      (fires pos (EEProm._we r) (EEProm._we (EEProm.drive r j))
       && (EEProm.a (EEProm.drive r j) =? a))
      || EEProm_written a (EEProm.step r j) tr'
  end.

(** ** The [formal] entry points of the five files *)

Inductive variant : Type :=
| SRam_py
| sram_py
| eeprom_py
| TransparentLatch_py
| transparent_latch_py.

Definition formal_of (v : variant) : result (option design) :=
  match v with
  | SRam_py => SRam.formal
  | sram_py => sram.formal
  | eeprom_py => EEProm.formal
  | TransparentLatch_py => TransparentLatch.formal
  | transparent_latch_py => transparent_latch.formal
  end.

(** The properties the body of each [formal] states.  [SRam.py] has a TODO
    where they would be; the bodies that are [assert False] have none. *)
Definition formal_properties (v : variant) : list property :=
  match v with
  | TransparentLatch_py => [Cover; Assert; Assert; Assert]
  | SRam_py | sram_py | eeprom_py | transparent_latch_py => []
  end.

(** Formal verification is implemented where there is something to verify. *)
Definition formal_implemented (v : variant) : bool :=
  match formal_properties v with
  | [] => false
  | _ :: _ => true
  end.

(** ** The devices and stimuli of the [sim] methods

    [SRam.sim] builds [SRam(16, 4)], [EEProm.sim] builds [EEProm(16, 4)] and
    [TransparentLatch.sim] builds [TransparentLatch(16)]; each test bench
    assigns ports and lets a microsecond pass, which is one step here. *)

Module Sim.

Definition mem : SRam.t :=
  {| SRam.addr := 0; SRam.data_in := 0; SRam.data_out := 0;
     SRam._oe := 0; SRam._we := 0;
     SRam.data_bits := 16; SRam.addr_bits := 4;
     SRam.__mem := replicate 16 0 |}.

Definition rom : EEProm.t :=
  {| EEProm.a := 0; EEProm.io_in := 0; EEProm.io_out := 0;
     EEProm._oe := 0; EEProm._we := 0;
     EEProm.a_bits := 4; EEProm.io_bits := 16;
     EEProm.__mem := replicate 16 0 |}.

Definition latch : TransparentLatch.t :=
  {| TransparentLatch.d := 0; TransparentLatch.q := 0;
     TransparentLatch.le := 0; TransparentLatch._oe := 0;
     TransparentLatch.bits := 16 |}.

(** The [process] of [SRam.sim], one stimulus per [Delay]. *)
Definition mem_process : list SRam.stimulus :=
  [ SRam.Stimulus 0 0x1111 1 0;
    SRam.Stimulus 0 0x1111 1 1;
    SRam.Stimulus 1 0x2222 1 0;
    SRam.Stimulus 1 0x2222 1 1;
    SRam.Stimulus 0 0 0 1;
    SRam.Stimulus 0 0 1 1;
    SRam.Stimulus 1 0 0 1;
    SRam.Stimulus 1 0 1 1 ].

(** The [process] of [TransparentLatch.sim], one stimulus per [Delay]. *)
Definition latch_process : list TransparentLatch.stimulus :=
  [ TransparentLatch.Stimulus 0 1 1;
    TransparentLatch.Stimulus 0x1234 1 1;
    TransparentLatch.Stimulus 0x5678 1 1;
    TransparentLatch.Stimulus 0x5678 0 1;
    TransparentLatch.Stimulus 0x1234 0 1;
    TransparentLatch.Stimulus 0x1234 1 1;
    TransparentLatch.Stimulus 0x1234 1 0 ].

End Sim.

(** ** The test bench of [SRam.sim] and [EEProm.sim], for any two cells

    The [process] writes one value at one address, a second value at a
    second address, and reads both back, raising output-enable to 1 between
    the reads; [sim] does so with [0x1111] at 0 and [0x2222] at 1. *)

Definition mem_process_at (a0 v0 a1 v1 : Z) : list SRam.stimulus :=
  [ SRam.Stimulus a0 v0 1 0;
    SRam.Stimulus a0 v0 1 1;
    SRam.Stimulus a1 v1 1 0;
    SRam.Stimulus a1 v1 1 1;
    SRam.Stimulus a0 0 0 1;
    SRam.Stimulus a0 0 1 1;
    SRam.Stimulus a1 0 0 1;
    SRam.Stimulus a1 0 1 1 ].

(** ** The combinational assertions of [TransparentLatch.formal]

    [with m.If(latch._oe == 1): Assert(latch.q == 0)] and
    [with m.If((latch._oe == 0) & (latch.le == 1)): Assert(latch.d == latch.q)];
    a comparison is a one-bit value. *)

Definition latch_formal_asserts (s : TransparentLatch.t) : bool :=
  (if truthy (Z.b2z (TransparentLatch._oe s =? 1))
   then TransparentLatch.q s =? 0
   else true)
  && (if truthy (Z.land (Z.b2z (TransparentLatch._oe s =? 0))
                        (Z.b2z (TransparentLatch.le s =? 1)))
      then TransparentLatch.d s =? TransparentLatch.q s
      else true).

(** ** [util.py] *)

Module util.

(** What a script does to the outside, in order. *)
Inductive event : Type :=
| Print (line : string)
| Write (filename content : string).

(** How a script ends when it does not reach its last line: an exception of
    the devices, [sys.exit(code)], the failed unpacking of a [formal] that
    returned [None], or a file that does not parse. *)
Inductive stop : Type :=
| Uncaught (e : exn)
| SystemExit (code : Z)
| TypeError
| SyntaxError.

Definition run : Type := list event * option stop.

(** [r1] and then, if it ran to its end, [r2]. *)
Definition and_then (r1 r2 : run) : run :=
  match r1 with
  | (ev, Some s) => (ev, Some s)
  | (ev, None) => (ev ++ fst r2, snd r2)
  end.

(** [t < u] on tuples of integers. *)
Fixpoint tuple_lt (t u : list Z) : bool :=
  match t, u with
  | _, [] => false
  | [], _ :: _ => true
  | x :: t', y :: u' => if x =? y then tuple_lt t' u' else x <? y
  end.

(** The body of the module, run when a device file imports it.  Of
    [sys.version_info] the numeric fields [major], [minor], [micro] are
    kept: the comparison with [(3, 9)] never reaches the others.

    Before Python 3.6 nothing of it runs: the f-string in [main] (line 13)
    does not parse, and neither do the annotated class attributes of the
    device files, so the interpreter stops with a [SyntaxError] before the
    guard.  From 3.6 on the guard is the first thing to run. *)
Definition import_ (major minor micro : Z) : run :=
  if tuple_lt [major; minor; micro] [3; 6]
  then ([], Some SyntaxError)
  else if tuple_lt [major; minor; micro] [3; 9]
  then ([Print "Python 3.9 or higher is required."], Some (SystemExit 1))
  else ([], None).

(** A device class as [main] uses it: what [cls.sim()] does and what
    [cls.formal()] returns. *)
Record cls : Type := Cls {
  sim : run;
  formal : result (option design)
}.

(** [main(cls, filename)] with [sys.argv = argv0 :: args]; [convert] stands
    for [Fragment.get] followed by [rtlil.convert]. *)
Definition main (convert : design -> result string)
    (argv0 : string) (args : list string) (c : cls) (filename : string) : run :=
  let argv := argv0 :: args in
  let argv1 := nth 1 argv EmptyString in
  if (length argv <? 2)%nat
     || (negb (String.eqb argv1 "sim") && negb (String.eqb argv1 "gen"))
  then ([Print ("Usage: python " ++ argv0 ++ " sim|gen")%string],
        Some (SystemExit 1))
  else if String.eqb argv1 "sim"
  then sim c
  else match formal c with
       | Raise e => ([], Some (Uncaught e))
       | Ok None => ([], Some TypeError)
       | Ok (Some d) =>
           match convert d with
           | Raise e => ([], Some (Uncaught e))
           | Ok output => ([Write filename output], None)
           end
       end.

End util.

(** ** The five scripts

    Each file ends in [main(<class>, <file name>)] under
    [if __name__ == "__main__"].  What the simulator writes is not part of
    the files; [simulate] stands for it, except in [transparent_latch.py]
    whose [sim] is [assert False]. *)

Definition filename_of (v : variant) : string :=
  match v with
  | SRam_py => "out/SRam.il"
  | sram_py => "sram.il"
  | eeprom_py => "eeprom.il"
  | TransparentLatch_py => "out/TransparentLatch.il"
  | transparent_latch_py => "transparent_latch.il"
  end.

Definition class_of (simulate : util.run) (v : variant) : util.cls :=
  {| util.sim := match v with
                 | transparent_latch_py => ([], Some (util.Uncaught AssertionError))
                 | _ => simulate
                 end;
     util.formal := formal_of v |}.

Definition script (major minor micro : Z) (convert : design -> result string)
    (simulate : util.run) (argv0 : string) (args : list string) (v : variant)
    : util.run :=
  util.and_then (util.import_ major minor micro)
    (util.main convert argv0 args (class_of simulate v) (filename_of v)).

(** * Properties *)

(** ** Signals and arrays *)

Section Primitives.

Lemma eq__mod (w v : Z) : 0 <= w -> eq_ w v = v mod 2 ^ w.
Proof. intros Hw. unfold eq_. now rewrite Z.land_ones. Qed.

Lemma eq__range (w v : Z) : 0 <= w -> 0 <= eq_ w v < 2 ^ w.
Proof.
  intros Hw. rewrite eq__mod by assumption.
  apply Z.mod_pos_bound. apply Z.pow_pos_nonneg; lia.
Qed.

Lemma eq__small (w v : Z) : 0 <= w -> 0 <= v < 2 ^ w -> eq_ w v = v.
Proof. intros Hw Hv. rewrite eq__mod by assumption. now apply Z.mod_small. Qed.

Lemma eq__zero (w : Z) : eq_ w 0 = 0.
Proof. reflexivity. Qed.

Lemma eq__bit (v : Z) : eq_ 1 v = 0 \/ eq_ 1 v = 1.
Proof. pose proof (eq__range 1 v ltac:(lia)) as H. change (2 ^ 1) with 2 in H. lia. Qed.

(** On one-bit operands [~oe & we] is set exactly for [oe = 0], [we = 1]. *)
Lemma read_strobe (oe we : Z) :
  0 <= oe < 2 -> 0 <= we < 2 ->
  truthy (Z.land (inv 1 oe) we) = (oe =? 0) && (we =? 1).
Proof.
  intros Ho Hw.
  assert (oe = 0 \/ oe = 1) as [-> | ->] by lia;
    assert (we = 0 \/ we = 1) as [-> | ->] by lia; reflexivity.
Qed.

(** On one-bit operands [le & ~oe] is set exactly for [le = 1], [oe = 0]. *)
Lemma pass_strobe (l oe : Z) :
  0 <= l < 2 -> 0 <= oe < 2 ->
  truthy (Z.land l (inv 1 oe)) = (l =? 1) && (oe =? 0).
Proof.
  intros Hl Ho.
  assert (oe = 0 \/ oe = 1) as [-> | ->] by lia;
    assert (l = 0 \/ l = 1) as [-> | ->] by lia; reflexivity.
Qed.

Lemma fires_pos (old new : Z) :
  0 <= old < 2 -> 0 <= new < 2 ->
  fires pos old new = (old =? 0) && (new =? 1).
Proof.
  intros Ho Hn.
  assert (old = 0 \/ old = 1) as [-> | ->] by lia;
    assert (new = 0 \/ new = 1) as [-> | ->] by lia; reflexivity.
Qed.

Lemma fires_neg (old new : Z) :
  0 <= old < 2 -> 0 <= new < 2 ->
  fires neg old new = (old =? 1) && (new =? 0).
Proof.
  intros Ho Hn.
  assert (old = 0 \/ old = 1) as [-> | ->] by lia;
    assert (new = 0 \/ new = 1) as [-> | ->] by lia; reflexivity.
Qed.

Lemma fires_same (e : clk_edge) (v : Z) : fires e v v = false.
Proof. unfold fires. now rewrite Z.eqb_refl. Qed.

Lemma Array_set_in (elems : list Z) (i v : Z) :
  (Z.to_nat i < length elems)%nat ->
  Array_set elems i v = <[Z.to_nat i := v]> elems.
Proof.
  intros Hi. unfold Array_set.
  destruct (Nat.ltb_spec (Z.to_nat i) (length elems)); [reflexivity | lia].
Qed.

Lemma Array_set_length (elems : list Z) (i v : Z) :
  length (Array_set elems i v) = length elems.
Proof. unfold Array_set. destruct (_ <? _)%nat; apply length_insert. Qed.

Lemma Array_get_in (elems : list Z) (i : Z) :
  (Z.to_nat i < length elems)%nat ->
  elems !! Z.to_nat i = Some (Array_get elems i).
Proof.
  intros Hi. unfold Array_get.
  destruct (lookup_lt_is_Some_2 elems (Z.to_nat i) Hi) as [c Hc].
  now rewrite Hc.
Qed.

Lemma Array_get_set (elems : list Z) (i v : Z) :
  (Z.to_nat i < length elems)%nat ->
  Array_get (Array_set elems i v) i = v.
Proof.
  intros Hi. rewrite Array_set_in by assumption.
  unfold Array_get. now rewrite list_lookup_insert_eq.
Qed.

Lemma Array_set_forallb (P : Z -> bool) (elems : list Z) (i v : Z) :
  forallb P elems = true -> P v = true ->
  forallb P (Array_set elems i v) = true.
Proof.
  intros Hall Hv. unfold Array_set.
  assert (forall n, forallb P (<[n := v]> elems) = true) as Hins.
  { revert Hall. induction elems as [| c cs IH]; intros Hall [| n]; simpl in *;
      try reflexivity; apply andb_true_iff in Hall as [Hc Hcs];
      apply andb_true_iff; auto. }
  destruct (_ <? _)%nat; apply Hins.
Qed.

Lemma Array_get_forallb (P : Z -> bool) (elems : list Z) (i : Z) :
  forallb P elems = true -> (Z.to_nat i < length elems)%nat ->
  P (Array_get elems i) = true.
Proof.
  intros Hall Hi. pose proof (Array_get_in elems i Hi) as Hget.
  rewrite forallb_forall in Hall. apply Hall.
  apply list_elem_of_In. eapply list_elem_of_lookup_2. exact Hget.
Qed.

(** The index of an in-range address. *)
Lemma index_in (w x : Z) (n : nat) :
  n = Z.to_nat (2 ^ w) -> 0 <= x < 2 ^ w -> (Z.to_nat x < n)%nat.
Proof. intros -> Hx. lia. Qed.

End Primitives.

(** ** The static RAM *)

Section SRamFacts.

Import SRam.

Lemma SRam_wf_spec (m : t) :
  wf m = true <->
  (0 < data_bits m /\ 0 < addr_bits m
   /\ 0 <= addr m < 2 ^ addr_bits m
   /\ 0 <= data_in m < 2 ^ data_bits m
   /\ 0 <= data_out m < 2 ^ data_bits m
   /\ 0 <= _oe m < 2 /\ 0 <= _we m < 2
   /\ length (__mem m) = Z.to_nat (2 ^ addr_bits m)
   /\ forallb (fun c => (0 <=? c) && (c <? 2 ^ data_bits m)) (__mem m) = true).
Proof.
  unfold wf. rewrite !andb_true_iff, !Z.ltb_lt, !Z.leb_le, Nat.eqb_eq. tauto.
Qed.

(** The ports after a step are the masked stimulus; the widths stay. *)
Lemma SRam_step_ports (m : t) (i : stimulus) :
  addr (step m i) = eq_ (addr_bits m) (to_addr i)
  /\ data_in (step m i) = eq_ (data_bits m) (to_data_in i)
  /\ _oe (step m i) = eq_ 1 (to_oe i)
  /\ _we (step m i) = eq_ 1 (to_we i)
  /\ data_bits (step m i) = data_bits m
  /\ addr_bits (step m i) = addr_bits m.
Proof. unfold step. destruct (fires _ _ _); repeat split. Qed.

(** The cells after a step. *)
Lemma SRam_step_mem (m : t) (i : stimulus) :
  wf m = true ->
  __mem (step m i) =
    if (_we m =? 0) && (eq_ 1 (to_we i) =? 1)
    then <[Z.to_nat (eq_ (addr_bits m) (to_addr i)) :=
             eq_ (data_bits m) (to_data_in i)]> (__mem m)
    else __mem m.
Proof.
  intros Hwf. apply SRam_wf_spec in Hwf as (Hd & Ha & _ & _ & _ & _ & Hwe & Hlen & _).
  unfold step. cbn [drive _we].
  rewrite fires_pos by (try assumption; apply (eq__range 1); lia).
  destruct (_ && _); [| reflexivity].
  cbn [comb we_clk __mem drive addr data_in data_bits].
  rewrite Array_set_in.
  - f_equal. apply eq__small; [lia | apply eq__range; lia].
  - eapply index_in; [eassumption | apply eq__range; lia].
Qed.

Lemma SRam_step_wf (m : t) (i : stimulus) : wf m = true -> wf (step m i) = true.
Proof.
  intros Hwf. pose proof (SRam_step_mem m i Hwf) as Hmem.
  pose proof (SRam_step_ports m i) as (Hp1 & Hp2 & Hp3 & Hp4 & Hp5 & Hp6).
  apply SRam_wf_spec in Hwf as (Hd & Ha & _ & _ & _ & _ & Hwe & Hlen & Hall).
  apply SRam_wf_spec. rewrite Hp1, Hp2, Hp3, Hp4, Hp5, Hp6, Hmem.
  repeat split; try lia; try (apply eq__range; lia);
    try (apply (eq__range 1); lia).
  - unfold step. destruct (fires _ _ _); cbn [comb data_out];
      destruct (truthy _); apply eq__range; cbn; lia.
  - unfold step. destruct (fires _ _ _); cbn [comb data_out];
      destruct (truthy _); apply eq__range; cbn; lia.
  - destruct (_ && _); [rewrite length_insert |]; exact Hlen.
  - destruct (_ && _); [| exact Hall].
    rewrite <- (Array_set_in (__mem m) _ _)
      by (eapply index_in; [eassumption | apply eq__range; lia]).
    apply Array_set_forallb; [exact Hall |].
    pose proof (eq__range (data_bits m) (to_data_in i) ltac:(lia)).
    apply andb_true_iff. rewrite Z.leb_le, Z.ltb_lt. lia.
Qed.

Lemma SRam_run_wf (tr : list stimulus) (m : t) :
  wf m = true -> wf (run m tr) = true.
Proof.
  revert m. induction tr as [| i tr IH]; intros m Hwf; [exact Hwf |].
  apply IH, SRam_step_wf, Hwf.
Qed.

(** The output after a step. *)
Lemma SRam_step_out (m : t) (i : stimulus) :
  wf m = true ->
  data_out (step m i) =
    if (_oe (step m i) =? 0) && (_we (step m i) =? 1)
    then Array_get (__mem (step m i)) (addr (step m i))
    else 0.
Proof.
  intros Hwf. pose proof (SRam_step_wf m i Hwf) as Hwf'.
  apply SRam_wf_spec in Hwf' as (Hd & Ha & Haddr & _ & _ & Hoe & Hwe & Hlen & Hall).
  rewrite <- read_strobe by assumption.
  assert (forall n : t, step m i = comb n -> data_out (comb n) =
            if truthy (Z.land (inv 1 (_oe (comb n))) (_we (comb n)))
            then Array_get (__mem (comb n)) (addr (comb n)) else 0) as Hcomb.
  { intros n Hn. rewrite Hn in *. cbn [comb data_out _oe _we __mem addr] in *.
    destruct (truthy _); [| reflexivity].
    apply eq__small; [cbn in Hd; lia |].
    pose proof (Array_get_forallb _ (__mem n) (addr n) Hall) as Hc.
    cbn beta in Hc. rewrite andb_true_iff, Z.leb_le, Z.ltb_lt in Hc.
    apply Hc. eapply index_in; eassumption. }
  unfold step in *. destruct (fires _ _ _); now apply Hcomb.
Qed.

Lemma SRam_init_wf (ceiling db ab : Z) (m : t) :
  init_with ceiling db ab = Ok m -> wf m = true.
Proof.
  unfold init_with, py_assert.
  destruct (Z.gtb_spec db 0); [| discriminate].
  destruct (Z.gtb_spec ab 0); [| discriminate].
  destruct (Z.leb_spec ab ceiling); [| discriminate].
  intros [= <-]. apply SRam_wf_spec. cbn. unfold Signal.
  assert (0 < 2 ^ db) by (apply Z.pow_pos_nonneg; lia).
  assert (0 < 2 ^ ab) by (apply Z.pow_pos_nonneg; lia).
  repeat apply conj; try lia.
  - apply length_replicate.
  - apply forallb_forall. intros c Hc%list_elem_of_In%elem_of_replicate.
    destruct Hc as [-> _]. unfold Signal.
    apply andb_true_iff. rewrite Z.leb_le, Z.ltb_lt. lia.
Qed.

End SRamFacts.

(** ** The EEPROM, through the renaming of ports *)

Section EEPromFacts.

Lemma as_EEProm_as_SRam (r : EEProm.t) : as_EEProm (as_SRam r) = r.
Proof. now destruct r. Qed.

Lemma as_SRam_as_EEProm (m : SRam.t) : as_SRam (as_EEProm m) = m.
Proof. now destruct m. Qed.

Lemma rename_unrename (j : EEProm.stimulus) : rename (unrename j) = j.
Proof. now destruct j. Qed.

Lemma as_EEProm_step (m : SRam.t) (i : SRam.stimulus) :
  as_EEProm (SRam.step m i) = EEProm.step (as_EEProm m) (rename i).
Proof.
  unfold SRam.step, EEProm.step. cbn [SRam.drive SRam._we EEProm.drive EEProm._we as_EEProm].
  destruct (fires _ _ _); reflexivity.
Qed.

Lemma as_EEProm_run (tr : list SRam.stimulus) (m : SRam.t) :
  as_EEProm (SRam.run m tr) = EEProm.run (as_EEProm m) (map rename tr).
Proof.
  revert m. induction tr as [| i tr IH]; intros m; [reflexivity |].
  cbn. rewrite <- as_EEProm_step. apply IH.
Qed.

Lemma EEProm_step_as_SRam (r : EEProm.t) (j : EEProm.stimulus) :
  EEProm.step r j = as_EEProm (SRam.step (as_SRam r) (unrename j)).
Proof. now rewrite as_EEProm_step, as_EEProm_as_SRam, rename_unrename. Qed.

Lemma as_EEProm_wf (m : SRam.t) : EEProm.wf (as_EEProm m) = SRam.wf m.
Proof. reflexivity. Qed.

Lemma as_SRam_wf (r : EEProm.t) : SRam.wf (as_SRam r) = EEProm.wf r.
Proof. reflexivity. Qed.

Lemma as_EEProm_init (db ab : Z) :
  EEProm.__init__ db ab =
    match SRam.__init__ db ab with
    | Ok m => Ok (as_EEProm m)
    | Raise e => Raise e
    end.
Proof.
  unfold EEProm.__init__, SRam.__init__, SRam.init_with, py_assert.
  destruct (db >? 0), (ab >? 0), (ab <=? 32); reflexivity.
Qed.

Lemma EEProm_step_wf (r : EEProm.t) (j : EEProm.stimulus) :
  EEProm.wf r = true -> EEProm.wf (EEProm.step r j) = true.
Proof.
  intros Hwf. rewrite EEProm_step_as_SRam, as_EEProm_wf.
  now apply SRam_step_wf.
Qed.

Lemma EEProm_run_wf (tr : list EEProm.stimulus) (r : EEProm.t) :
  EEProm.wf r = true -> EEProm.wf (EEProm.run r tr) = true.
Proof.
  revert r. induction tr as [| j tr IH]; intros r Hwf; [exact Hwf |].
  apply IH, EEProm_step_wf, Hwf.
Qed.

Lemma EEProm_step_ports (r : EEProm.t) (j : EEProm.stimulus) :
  EEProm.a (EEProm.step r j) = eq_ (EEProm.a_bits r) (EEProm.to_a j)
  /\ EEProm.io_in (EEProm.step r j) = eq_ (EEProm.io_bits r) (EEProm.to_io_in j)
  /\ EEProm._oe (EEProm.step r j) = eq_ 1 (EEProm.to_oe j)
  /\ EEProm._we (EEProm.step r j) = eq_ 1 (EEProm.to_we j)
  /\ EEProm.io_bits (EEProm.step r j) = EEProm.io_bits r
  /\ EEProm.a_bits (EEProm.step r j) = EEProm.a_bits r.
Proof. unfold EEProm.step. destruct (fires _ _ _); repeat split. Qed.

Lemma EEProm_step_mem (r : EEProm.t) (j : EEProm.stimulus) :
  EEProm.wf r = true ->
  EEProm.__mem (EEProm.step r j) =
    if (EEProm._we r =? 0) && (eq_ 1 (EEProm.to_we j) =? 1)
    then <[Z.to_nat (eq_ (EEProm.a_bits r) (EEProm.to_a j)) :=
             eq_ (EEProm.io_bits r) (EEProm.to_io_in j)]> (EEProm.__mem r)
    else EEProm.__mem r.
Proof.
  intros Hwf. rewrite EEProm_step_as_SRam.
  exact (SRam_step_mem (as_SRam r) (unrename j) Hwf).
Qed.

Lemma EEProm_step_out (r : EEProm.t) (j : EEProm.stimulus) :
  EEProm.wf r = true ->
  EEProm.io_out (EEProm.step r j) =
    if (EEProm._oe (EEProm.step r j) =? 0) && (EEProm._we (EEProm.step r j) =? 1)
    then Array_get (EEProm.__mem (EEProm.step r j)) (EEProm.a (EEProm.step r j))
    else 0.
Proof.
  intros Hwf. rewrite EEProm_step_as_SRam.
  exact (SRam_step_out (as_SRam r) (unrename j) Hwf).
Qed.

Lemma EEProm_init_wf (db ab : Z) (r : EEProm.t) :
  EEProm.__init__ db ab = Ok r -> EEProm.wf r = true.
Proof.
  rewrite as_EEProm_init. destruct (SRam.__init__ db ab) as [m |] eqn:Hm; [| discriminate].
  intros [= <-]. rewrite as_EEProm_wf. eapply SRam_init_wf, Hm.
Qed.

End EEPromFacts.

(** ** Write, then read *)

Section WriteRead.

Lemma SRam_write_then_read (m : SRam.t) (a v oe din : Z) :
  SRam.wf m = true -> SRam._we m = 0 ->
  0 <= a < 2 ^ SRam.addr_bits m -> 0 <= v < 2 ^ SRam.data_bits m ->
  SRam.data_out
    (SRam.step (SRam.step m (SRam.Stimulus a v oe 1))
               (SRam.Stimulus a din 0 1)) = v.
Proof.
  intros Hwf Hwe Ha Hv.
  pose proof (SRam_step_wf m (SRam.Stimulus a v oe 1) Hwf) as Hwf1.
  pose proof (SRam_step_mem m (SRam.Stimulus a v oe 1) Hwf) as Hmem1.
  pose proof (SRam_step_ports m (SRam.Stimulus a v oe 1))
    as (_ & _ & _ & Hwe1 & Hdb1 & Hab1).
  cbn [SRam.to_addr SRam.to_data_in SRam.to_we] in Hmem1, Hwe1.
  remember (SRam.step m (SRam.Stimulus a v oe 1)) as m1 eqn:Em1.
  pose proof (SRam_step_mem m1 (SRam.Stimulus a din 0 1) Hwf1) as Hmem2.
  pose proof (SRam_step_ports m1 (SRam.Stimulus a din 0 1))
    as (Ha2 & _ & Hoe2 & Hwe2 & _ & _).
  cbn [SRam.to_addr SRam.to_oe SRam.to_we] in Hmem2, Ha2, Hoe2, Hwe2.
  rewrite SRam_step_out, Hoe2, Hwe2, Ha2, Hmem2, Hwe1 by assumption.
  change (eq_ 1 1) with 1. change (eq_ 1 0) with 0. cbn [Z.eqb Pos.eqb andb].
  rewrite Hmem1, Hwe, Hab1. change (eq_ 1 1) with 1. cbn [Z.eqb Pos.eqb andb].
  apply SRam_wf_spec in Hwf as (Hd & Hab & _ & _ & _ & _ & _ & Hlen & _).
  rewrite !eq__small by lia.
  unfold Array_get. rewrite list_lookup_insert_eq; [reflexivity | lia].
Qed.

Lemma EEProm_write_then_read (r : EEProm.t) (a v oe din : Z) :
  EEProm.wf r = true -> EEProm._we r = 0 ->
  0 <= a < 2 ^ EEProm.a_bits r -> 0 <= v < 2 ^ EEProm.io_bits r ->
  EEProm.io_out
    (EEProm.step (EEProm.step r (EEProm.Stimulus a v oe 1))
                 (EEProm.Stimulus a din 0 1)) = v.
Proof.
  intros Hwf Hwe Ha Hv.
  rewrite (EEProm_step_as_SRam r), EEProm_step_as_SRam, as_SRam_as_EEProm.
  exact (SRam_write_then_read (as_SRam r) a v oe din Hwf Hwe Ha Hv).
Qed.

(** C1.  A value written at an address by a 0-to-1 transition of the
    write-enable line, with address and data inside their widths, is the
    value on the output when that address is then read with output-enable
    at 0 and write-enable at 1; for the RAM and for the EEPROM. *)
Theorem write_then_read (m : SRam.t) (r : EEProm.t) (a v oe din : Z) :
  SRam.wf m = true -> SRam._we m = 0 ->
  0 <= a < 2 ^ SRam.addr_bits m -> 0 <= v < 2 ^ SRam.data_bits m ->
  EEProm.wf r = true -> EEProm._we r = 0 ->
  0 <= a < 2 ^ EEProm.a_bits r -> 0 <= v < 2 ^ EEProm.io_bits r ->
  SRam.data_out
    (SRam.step (SRam.step m (SRam.Stimulus a v oe 1))
               (SRam.Stimulus a din 0 1)) = v
  /\ EEProm.io_out
       (EEProm.step (EEProm.step r (EEProm.Stimulus a v oe 1))
                    (EEProm.Stimulus a din 0 1)) = v.
Proof.
  intros. split;
    [now apply SRam_write_then_read | now apply EEProm_write_then_read].
Qed.

End WriteRead.

(** ** The read path *)

Section ReadPath.

Lemma SRam_output (m : SRam.t) (i : SRam.stimulus) :
  SRam.wf m = true ->
  (if (SRam._oe (SRam.step m i) =? 0) && (SRam._we (SRam.step m i) =? 1)
   then SRam.__mem (SRam.step m i) !! Z.to_nat (SRam.addr (SRam.step m i))
        = Some (SRam.data_out (SRam.step m i))
   else SRam.data_out (SRam.step m i) = 0)
  /\ (SRam._we (SRam.step m i) = 0 \/ SRam._oe (SRam.step m i) = 1 ->
      SRam.data_out (SRam.step m i) = 0).
Proof.
  intros Hwf. pose proof (SRam_step_out m i Hwf) as Hout.
  pose proof (SRam_step_wf m i Hwf) as Hwf'.
  apply SRam_wf_spec in Hwf' as (_ & _ & Haddr & _ & _ & _ & _ & Hlen & _).
  split.
  - destruct (_ && _); [| exact Hout].
    rewrite Hout. apply Array_get_in. eapply index_in; eassumption.
  - intros [Hz | Hz]; rewrite Hz in Hout; [| exact Hout].
    now rewrite andb_false_r in Hout.
Qed.



End ReadPath.

(** ** The write path *)

Section WritePath.


Lemma as_EEProm_unrename_run (tr : list EEProm.stimulus) (r : EEProm.t) :
  EEProm.run r tr = as_EEProm (SRam.run (as_SRam r) (map unrename tr)).
Proof.
  rewrite as_EEProm_run, as_EEProm_as_SRam. f_equal.
  induction tr as [| j tr IH]; [reflexivity |].
  cbn [map]. now rewrite rename_unrename, <- IH.
Qed.



Lemma SRam_frame (m : SRam.t) (i : SRam.stimulus) (b : Z) :
  SRam.wf m = true -> 0 <= b -> b <> SRam.addr (SRam.step m i) ->
  SRam.__mem (SRam.step m i) !! Z.to_nat b = SRam.__mem m !! Z.to_nat b.
Proof.
  intros Hwf Hb Hne. rewrite SRam_step_mem by assumption.
  destruct (_ && _); [| reflexivity].
  destruct (SRam_step_ports m i) as (Haddr & _).
  apply SRam_wf_spec in Hwf as (_ & Hab & _).
  pose proof (eq__range (SRam.addr_bits m) (SRam.to_addr i) ltac:(lia)).
  apply list_lookup_insert_ne. rewrite Haddr in Hne. lia.
Qed.

Lemma EEProm_frame (r : EEProm.t) (j : EEProm.stimulus) (b : Z) :
  EEProm.wf r = true -> 0 <= b -> b <> EEProm.a (EEProm.step r j) ->
  EEProm.__mem (EEProm.step r j) !! Z.to_nat b = EEProm.__mem r !! Z.to_nat b.
Proof.
  intros Hwf Hb. rewrite EEProm_step_as_SRam.
  exact (SRam_frame (as_SRam r) (unrename j) b Hwf Hb).
Qed.

(** C4.  A write committed at address [a] by a 0-to-1 transition of
    write-enable leaves the cell at every other address [b] as it was; for
    the RAM and for the EEPROM. *)
Theorem write_leaves_other_cells
    (m : SRam.t) (r : EEProm.t) (a b v oe : Z) :
  SRam.wf m = true -> SRam._we m = 0 ->
  0 <= a < 2 ^ SRam.addr_bits m -> 0 <= b < 2 ^ SRam.addr_bits m ->
  EEProm.wf r = true -> EEProm._we r = 0 ->
  0 <= a < 2 ^ EEProm.a_bits r -> 0 <= b < 2 ^ EEProm.a_bits r ->
  b <> a ->
  (SRam.__mem (SRam.step m (SRam.Stimulus a v oe 1)) !! Z.to_nat a
     = Some (eq_ (SRam.data_bits m) v)
   /\ SRam.__mem (SRam.step m (SRam.Stimulus a v oe 1)) !! Z.to_nat b
     = SRam.__mem m !! Z.to_nat b)
  /\ (EEProm.__mem (EEProm.step r (EEProm.Stimulus a v oe 1)) !! Z.to_nat a
        = Some (eq_ (EEProm.io_bits r) v)
      /\ EEProm.__mem (EEProm.step r (EEProm.Stimulus a v oe 1)) !! Z.to_nat b
        = EEProm.__mem r !! Z.to_nat b).
Proof.
  intros Hm Hwe Ha Hb Hr Hwe' Ha' Hb' Hne.
  pose proof Hm as (_ & Hab & _ & _ & _ & _ & _ & Hlen & _)%SRam_wf_spec.
  pose proof (proj1 (SRam_wf_spec (as_SRam r)) Hr)
    as (_ & Hab' & _ & _ & _ & _ & _ & Hlen' & _).
  cbn in Hab', Hlen'.
  repeat apply conj.
  - rewrite SRam_step_mem, Hwe by assumption. cbn [SRam.to_we SRam.to_addr SRam.to_data_in].
    change (eq_ 1 1) with 1. cbn [Z.eqb Pos.eqb andb].
    rewrite (eq__small _ a) by lia. apply list_lookup_insert_eq. lia.
  - apply SRam_frame; [assumption | lia |].
    destruct (SRam_step_ports m (SRam.Stimulus a v oe 1)) as (-> & _).
    cbn. rewrite eq__small by lia. exact Hne.
  - rewrite EEProm_step_mem, Hwe' by assumption.
    cbn [EEProm.to_we EEProm.to_a EEProm.to_io_in].
    change (eq_ 1 1) with 1. cbn [Z.eqb Pos.eqb andb].
    rewrite (eq__small _ a) by lia. apply list_lookup_insert_eq. lia.
  - apply EEProm_frame; [assumption | lia |].
    destruct (EEProm_step_ports r (EEProm.Stimulus a v oe 1)) as (-> & _).
    cbn. rewrite eq__small by lia. exact Hne.
Qed.

End WritePath.

(** ** The RAM against the EEPROM *)

Section Equivalence.

Lemma sram_as_EEProm (db ab : Z) (m : SRam.t) (r : EEProm.t)
    (tr : list SRam.stimulus) :
  sram.__init__ db ab = Ok m -> EEProm.__init__ db ab = Ok r ->
  EEProm.run r (map rename tr) = as_EEProm (SRam.run m tr).
Proof.
  unfold sram.__init__, EEProm.__init__, SRam.init_with, py_assert.
  destruct (db >? 0), (ab >? 0), (ab <=? 16), (ab <=? 32); try discriminate.
  intros [= <-] [= <-]. symmetry. apply as_EEProm_run.
Qed.

(** C7.  Built with the same widths, the RAM and the EEPROM go through the
    same states and show the same outputs on every sequence of inputs, up
    to the names of their ports. *)
Theorem ram_eeprom_same_behaviour (db ab : Z) (m : SRam.t) (r : EEProm.t)
    (tr : list SRam.stimulus) :
  SRam.__init__ db ab = Ok m -> EEProm.__init__ db ab = Ok r ->
  EEProm.run r (map rename tr) = as_EEProm (SRam.run m tr)
  /\ EEProm.__mem (EEProm.run r (map rename tr)) = SRam.__mem (SRam.run m tr)
  /\ EEProm.io_out (EEProm.run r (map rename tr)) = SRam.data_out (SRam.run m tr).
Proof.
  intros Hm Hr. rewrite as_EEProm_init, Hm in Hr. injection Hr as <-.
  rewrite <- as_EEProm_run. repeat split.
Qed.

End Equivalence.

(** ** The transparent latch *)

Section LatchFacts.

Import TransparentLatch.

Lemma latch_wf_spec (m : module) :
  wf m = true <->
  (0 < bits (self m)
   /\ 0 <= d (self m) < 2 ^ bits (self m)
   /\ 0 <= q (self m) < 2 ^ bits (self m)
   /\ 0 <= le (self m) < 2
   /\ 0 <= _oe (self m) < 2
   /\ 0 <= internal_reg m < 2 ^ bits (self m)).
Proof.
  unfold wf. cbv zeta.
  rewrite !andb_true_iff, !Z.ltb_lt, !Z.leb_le. tauto.
Qed.

Lemma latch_step_ports (m : module) (i : stimulus) :
  d (self (step m i)) = eq_ (bits (self m)) (to_d i)
  /\ le (self (step m i)) = eq_ 1 (to_le i)
  /\ _oe (self (step m i)) = eq_ 1 (to_oe i)
  /\ bits (self (step m i)) = bits (self m).
Proof. unfold step. destruct (fires _ _ _); repeat split. Qed.

(** The register after a step. *)
Lemma latch_step_reg (m : module) (i : stimulus) :
  wf m = true ->
  internal_reg (step m i) =
    if (le (self m) =? 1) && (eq_ 1 (to_le i) =? 0)
    then eq_ (bits (self m)) (to_d i)
    else internal_reg m.
Proof.
  intros Hwf. apply latch_wf_spec in Hwf as (Hb & _ & _ & Hle & _).
  unfold step. cbn [drive self le].
  rewrite fires_neg by (try assumption; apply (eq__range 1); lia).
  destruct (_ && _); [| reflexivity].
  cbn. apply eq__small; [lia | apply eq__range; lia].
Qed.

Lemma latch_step_wf (m : module) (i : stimulus) :
  wf m = true -> wf (step m i) = true.
Proof.
  intros Hwf. pose proof (latch_step_reg m i Hwf) as Hreg.
  pose proof (latch_step_ports m i) as (Hp1 & Hp2 & Hp3 & Hp4).
  apply latch_wf_spec in Hwf as (Hb & _ & _ & _ & _ & Hr).
  apply latch_wf_spec. rewrite Hp1, Hp2, Hp3, Hp4, Hreg.
  repeat apply conj; try lia; try (apply eq__range; lia);
    try (apply (eq__range 1); lia).
  - unfold step. destruct (fires _ _ _); cbn [comb self q];
      destruct (truthy _); apply eq__range; cbn; lia.
  - unfold step. destruct (fires _ _ _); cbn [comb self q];
      destruct (truthy _); apply eq__range; cbn; lia.
  - destruct (_ && _); [apply eq__range |]; lia.
  - destruct (_ && _); [apply eq__range |]; lia.
Qed.

Lemma latch_run_wf (tr : list stimulus) (m : module) :
  wf m = true -> wf (run m tr) = true.
Proof.
  revert m. induction tr as [| i tr IH]; intros m Hwf; [exact Hwf |].
  apply IH, latch_step_wf, Hwf.
Qed.

(** The output after a step. *)
Lemma latch_step_q (m : module) (i : stimulus) :
  wf m = true ->
  q (self (step m i)) =
    if _oe (self (step m i)) =? 1 then 0
    else if le (self (step m i)) =? 1 then d (self (step m i))
    else internal_reg (step m i).
Proof.
  intros Hwf. pose proof (latch_step_wf m i Hwf) as Hwf'.
  apply latch_wf_spec in Hwf' as (Hb & Hd & _ & Hle & Hoe & Hr).
  assert (forall n : module, step m i = comb n -> q (self (comb n)) =
            if _oe (self (comb n)) =? 1 then 0
            else if le (self (comb n)) =? 1 then d (self (comb n))
            else internal_reg (comb n)) as Hcomb.
  { intros n Hn. rewrite Hn in *. cbn [comb self q _oe le d internal_reg bits] in *.
    rewrite pass_strobe by assumption. unfold Mux, truthy.
    assert (_oe (self n) = 0 \/ _oe (self n) = 1) as [-> | ->] by lia;
      assert (le (self n) = 0 \/ le (self n) = 1) as [-> | ->] by lia;
      cbn [Z.eqb Pos.eqb andb negb];
      try reflexivity; apply eq__small; lia. }
  unfold step in *. destruct (fires _ _ _); now apply Hcomb.
Qed.

Lemma latch_init_wf (b : Z) (l : t) :
  __init__ b = Ok l -> wf (elaborate l) = true.
Proof.
  unfold __init__, py_assert. destruct (Z.gtb_spec b 0); [| discriminate].
  intros [= <-]. apply latch_wf_spec. cbn. unfold Signal.
  assert (0 < 2 ^ b) by (apply Z.pow_pos_nonneg; lia).
  repeat apply conj; lia.
Qed.


Lemma latch_held_level (tr : list stimulus) (m : module) :
  wf m = true ->
  Forall (fun i => eq_ 1 (to_le i) = le (self m)) tr ->
  internal_reg (run m tr) = internal_reg m
  /\ le (self (run m tr)) = le (self m).
Proof.
  revert m. induction tr as [| i tr IH]; intros m Hwf Hall; [now split |].
  apply Forall_cons in Hall as [Hi Hall].
  pose proof (latch_step_ports m i) as (_ & Hle & _ & _).
  pose proof (latch_step_reg m i Hwf) as Hreg.
  assert ((le (self m) =? 1) && (eq_ 1 (to_le i) =? 0) = false) as Hno.
  { rewrite Hi. destruct (Z.eqb_spec (le (self m)) 1) as [-> |]; reflexivity. }
  rewrite Hno in Hreg. rewrite Hi in Hle.
  cbn [run fold_left]. fold (run (step m i) tr).
  destruct (IH (step m i)) as [IHr IHl].
  - now apply latch_step_wf.
  - now rewrite Hle.
  - split; congruence.
Qed.


End LatchFacts.

(** ** Construction *)

Section Construction.

(** From the outcome of a constructor to the three ways of saying when it
    fails. *)
Lemma outcome_cases {A : Type} (r : result A) (bad : Prop) (P : A -> Prop) :
  match r with
  | Ok x => ~ bad /\ P x
  | Raise e => e = AssertionError /\ bad
  end ->
  (r = Raise AssertionError <-> bad)
  /\ ((forall x, r <> Ok x) <-> bad)
  /\ (~ bad -> exists x, r = Ok x /\ P x).
Proof.
  destruct r as [x | e].
  - intros [Hgood HP]. split; [| split].
    + split; [discriminate | intros Hbad; now destruct Hgood].
    + split; [intros Hno; now destruct (Hno x) | intros Hbad; now destruct Hgood].
    + intros _. now exists x.
  - intros [-> Hbad]. split; [| split].
    + now split.
    + split; [intros _; exact Hbad | discriminate].
    + intros Hgood. now destruct Hgood.
Qed.

Lemma init_with_outcome (ceiling db ab : Z) :
  match SRam.init_with ceiling db ab with
  | Ok m =>
      ~ (db <= 0 \/ ab <= 0 \/ ceiling < ab)
      /\ Z.of_nat (length (SRam.__mem m)) = 2 ^ ab
  | Raise e => e = AssertionError /\ (db <= 0 \/ ab <= 0 \/ ceiling < ab)
  end.
Proof.
  unfold SRam.init_with, py_assert.
  destruct (Z.gtb_spec db 0); [| split; [reflexivity | lia]].
  destruct (Z.gtb_spec ab 0); [| split; [reflexivity | lia]].
  destruct (Z.leb_spec ab ceiling); [| split; [reflexivity | lia]].
  cbn. rewrite length_replicate.
  assert (0 < 2 ^ ab) by (apply Z.pow_pos_nonneg; lia).
  split; lia.
Qed.

Lemma EEProm_init_outcome (db ab : Z) :
  match EEProm.__init__ db ab with
  | Ok r =>
      ~ (db <= 0 \/ ab <= 0 \/ 32 < ab)
      /\ Z.of_nat (length (EEProm.__mem r)) = 2 ^ ab
  | Raise e => e = AssertionError /\ (db <= 0 \/ ab <= 0 \/ 32 < ab)
  end.
Proof.
  rewrite as_EEProm_init. unfold SRam.__init__.
  pose proof (init_with_outcome 32 db ab) as H.
  destruct (SRam.init_with 32 db ab); exact H.
Qed.

Lemma latch_init_outcome (b : Z) :
  match TransparentLatch.__init__ b with
  | Ok l => ~ b <= 0 /\ TransparentLatch.bits l = b
  | Raise e => e = AssertionError /\ b <= 0
  end.
Proof.
  unfold TransparentLatch.__init__, py_assert.
  destruct (Z.gtb_spec b 0); [split; [lia | reflexivity] | split; [reflexivity | lia]].
Qed.

(** C8.  A memory constructor fails, with an [AssertionError] and without
    a device, exactly when the data width is not positive, the address
    width is not positive, or the address width is above the ceiling (32 in
    [SRam.py] and [eeprom.py], 16 in [sram.py]); a latch constructor fails
    exactly when the width is not positive; every other construction
    yields a device, the memories with [2 ^ addr_bits] cells. *)
Theorem construction_outcome (db ab b : Z) :
  ((SRam.__init__ db ab = Raise AssertionError <-> db <= 0 \/ ab <= 0 \/ 32 < ab)
   /\ ((forall m, SRam.__init__ db ab <> Ok m) <-> db <= 0 \/ ab <= 0 \/ 32 < ab)
   /\ (~ (db <= 0 \/ ab <= 0 \/ 32 < ab) ->
       exists m, SRam.__init__ db ab = Ok m
                 /\ Z.of_nat (length (SRam.__mem m)) = 2 ^ ab))
  /\ ((sram.__init__ db ab = Raise AssertionError <-> db <= 0 \/ ab <= 0 \/ 16 < ab)
      /\ ((forall m, sram.__init__ db ab <> Ok m) <-> db <= 0 \/ ab <= 0 \/ 16 < ab)
      /\ (~ (db <= 0 \/ ab <= 0 \/ 16 < ab) ->
          exists m, sram.__init__ db ab = Ok m
                    /\ Z.of_nat (length (SRam.__mem m)) = 2 ^ ab))
  /\ ((EEProm.__init__ db ab = Raise AssertionError <-> db <= 0 \/ ab <= 0 \/ 32 < ab)
      /\ ((forall r, EEProm.__init__ db ab <> Ok r) <-> db <= 0 \/ ab <= 0 \/ 32 < ab)
      /\ (~ (db <= 0 \/ ab <= 0 \/ 32 < ab) ->
          exists r, EEProm.__init__ db ab = Ok r
                    /\ Z.of_nat (length (EEProm.__mem r)) = 2 ^ ab))
  /\ ((TransparentLatch.__init__ b = Raise AssertionError <-> b <= 0)
      /\ ((forall l, TransparentLatch.__init__ b <> Ok l) <-> b <= 0)
      /\ (~ b <= 0 ->
          exists l, TransparentLatch.__init__ b = Ok l
                    /\ TransparentLatch.bits l = b))
  /\ ((transparent_latch.__init__ b = Raise AssertionError <-> b <= 0)
      /\ ((forall l, transparent_latch.__init__ b <> Ok l) <-> b <= 0)
      /\ (~ b <= 0 ->
          exists l, transparent_latch.__init__ b = Ok l
                    /\ TransparentLatch.bits l = b)).
Proof.
  split; [| split; [| split; [| split]]].
  - apply outcome_cases, (init_with_outcome 32).
  - apply outcome_cases, (init_with_outcome 16).
  - apply outcome_cases, EEProm_init_outcome.
  - apply outcome_cases, latch_init_outcome.
  - apply outcome_cases, latch_init_outcome.
Qed.

End Construction.

(** ** The [formal] entry points *)

Section Formal.




End Formal.

(** ** Initial contents *)

Section InitialContents.

Lemma SRam_unwritten_cell (a : Z) (tr : list SRam.stimulus) (m : SRam.t) :
  SRam.wf m = true -> 0 <= a -> SRam_written a m tr = false ->
  SRam.__mem (SRam.run m tr) !! Z.to_nat a = SRam.__mem m !! Z.to_nat a.
Proof.
  revert m. induction tr as [| i tr IH]; intros m Hwf Ha Hnw; [reflexivity |].
  cbn [SRam_written] in Hnw. apply orb_false_iff in Hnw as [Hhere Hrest].
  cbn [SRam.run fold_left]. fold (SRam.run (SRam.step m i) tr).
  rewrite IH by (try assumption; now apply SRam_step_wf).
  destruct (SRam_step_ports m i) as (Haddr & _ & _ & Hwe & _).
  destruct (Z.eq_dec a (SRam.addr (SRam.step m i))) as [Heq | Hne];
    [| now apply SRam_frame].
  rewrite SRam_step_mem by assumption.
  pose proof Hwf as (_ & _ & _ & _ & _ & _ & Hwe0 & _)%SRam_wf_spec.
  cbn [SRam.drive SRam._we SRam.addr] in Hhere.
  rewrite fires_pos in Hhere by (try assumption; apply (eq__range 1); lia).
  rewrite <- Haddr, <- Heq, Z.eqb_refl, andb_true_r in Hhere.
  now rewrite Hhere.
Qed.

Lemma SRam_init_cells (ceiling db ab : Z) (m : SRam.t) :
  SRam.init_with ceiling db ab = Ok m ->
  SRam.__mem m = replicate (Z.to_nat (2 ^ ab)) 0
  /\ SRam._we m = 0 /\ SRam.addr_bits m = ab.
Proof.
  unfold SRam.init_with, py_assert.
  destruct (db >? 0), (ab >? 0), (ab <=? ceiling); try discriminate.
  now intros [= <-].
Qed.

Lemma SRam_unwritten_reads_zero (ceiling db ab a : Z) (m : SRam.t)
    (tr : list SRam.stimulus) :
  SRam.init_with ceiling db ab = Ok m -> 0 <= a < 2 ^ ab ->
  SRam_written a m tr = false ->
  SRam._oe (SRam.run m tr) = 0 -> SRam._we (SRam.run m tr) = 1 ->
  SRam.addr (SRam.run m tr) = a ->
  SRam.data_out (SRam.run m tr) = 0.
Proof.
  intros Hinit Ha Hnw Hoe Hwe Haddr.
  pose proof (SRam_init_wf _ _ _ _ Hinit) as Hwf.
  destruct (SRam_init_cells _ _ _ _ Hinit) as (Hcells & Hwe0 & Hab).
  pose proof (SRam_unwritten_cell a tr m Hwf ltac:(lia) Hnw) as Hcell.
  rewrite Hcells, lookup_replicate_2 in Hcell by lia.
  destruct tr as [| i tr _] using rev_ind.
  - cbn in Hwe. congruence.
  - unfold SRam.run in *. rewrite fold_left_app in *. cbn [fold_left] in *.
    fold (SRam.run m tr) in *.
    pose proof (SRam_run_wf tr m Hwf) as Hwf'.
    destruct (SRam_output (SRam.run m tr) i Hwf') as [Hout _].
    rewrite Hoe, Hwe, Haddr in Hout. cbn [Z.eqb Pos.eqb andb] in Hout. congruence.
Qed.

Lemma EEProm_written_as_SRam (a : Z) (tr : list EEProm.stimulus) (r : EEProm.t) :
  EEProm_written a r tr = SRam_written a (as_SRam r) (map unrename tr).
Proof.
  revert r. induction tr as [| j tr IH]; intros r; [reflexivity |].
  cbn [EEProm_written SRam_written map]. rewrite IH. f_equal. f_equal.
  now rewrite EEProm_step_as_SRam, as_SRam_as_EEProm.
Qed.

Lemma EEProm_unwritten_reads_zero (db ab a : Z) (r : EEProm.t)
    (tr : list EEProm.stimulus) :
  EEProm.__init__ db ab = Ok r -> 0 <= a < 2 ^ ab ->
  EEProm_written a r tr = false ->
  EEProm._oe (EEProm.run r tr) = 0 -> EEProm._we (EEProm.run r tr) = 1 ->
  EEProm.a (EEProm.run r tr) = a ->
  EEProm.io_out (EEProm.run r tr) = 0.
Proof.
  rewrite as_EEProm_init, EEProm_written_as_SRam, as_EEProm_unrename_run.
  destruct (SRam.__init__ db ab) as [m |] eqn:Hm; [| discriminate].
  intros [= <-]. rewrite as_SRam_as_EEProm.
  exact (SRam_unwritten_reads_zero 32 db ab a m (map unrename tr) Hm).
Qed.

(** C10.  Every cell of a freshly built memory is 0 and so is the register
    of a freshly elaborated latch; hence after any sequence of steps none
    of which committed a write at address [a], a read of [a] (output-enable
    0, write-enable 1) shows 0; for the RAM and for the EEPROM. *)
Theorem unwritten_reads_zero (db ab b a : Z)
    (m : SRam.t) (r : EEProm.t) (l : TransparentLatch.t)
    (tr : list SRam.stimulus) (tr' : list EEProm.stimulus) :
  SRam.__init__ db ab = Ok m -> EEProm.__init__ db ab = Ok r ->
  TransparentLatch.__init__ b = Ok l ->
  0 <= a < 2 ^ ab ->
  (SRam.__mem m !! Z.to_nat a = Some 0
   /\ (SRam_written a m tr = false ->
       SRam._oe (SRam.run m tr) = 0 -> SRam._we (SRam.run m tr) = 1 ->
       SRam.addr (SRam.run m tr) = a ->
       SRam.data_out (SRam.run m tr) = 0))
  /\ (EEProm.__mem r !! Z.to_nat a = Some 0
      /\ (EEProm_written a r tr' = false ->
          EEProm._oe (EEProm.run r tr') = 0 -> EEProm._we (EEProm.run r tr') = 1 ->
          EEProm.a (EEProm.run r tr') = a ->
          EEProm.io_out (EEProm.run r tr') = 0))
  /\ TransparentLatch.internal_reg (TransparentLatch.elaborate l) = 0.
Proof.
  intros Hm Hr Hl Ha.
  destruct (SRam_init_cells _ _ _ _ Hm) as (Hcells & _).
  assert (EEProm.__mem r = SRam.__mem m) as Hsame.
  { rewrite as_EEProm_init, Hm in Hr. now injection Hr as <-. }
  split; [| split].
  - split; [rewrite Hcells; apply lookup_replicate_2; lia |].
    now apply (SRam_unwritten_reads_zero 32 db ab).
  - split; [rewrite Hsame, Hcells; apply lookup_replicate_2; lia |].
    now apply (EEProm_unwritten_reads_zero db ab).
  - reflexivity.
Qed.

End InitialContents.

(** ** The [sim] scenarios *)

Section Scenarios.

Example sim_mem_built : SRam.__init__ 16 4 = Ok Sim.mem.
Proof. reflexivity. Qed.

Example sim_rom_built : EEProm.__init__ 16 4 = Ok Sim.rom.
Proof. reflexivity. Qed.

Example sim_latch_built : TransparentLatch.__init__ 16 = Ok Sim.latch.
Proof. reflexivity. Qed.

(** Reading address 0 back shows [0x1111], address 1 shows [0x2222], and
    the output is 0 while output-enable is 1. *)
Example sim_mem_reads :
  map (fun n => SRam.data_out (SRam.run Sim.mem (take n Sim.mem_process)))
      [2; 4; 5; 6; 7; 8]%nat
  = [0; 0; 0x1111; 0; 0x2222; 0].
Proof. reflexivity. Qed.

Example sim_mem_cells :
  take 3 (SRam.__mem (SRam.run Sim.mem Sim.mem_process)) = [0x1111; 0x2222; 0].
Proof. reflexivity. Qed.

(** The latch test bench keeps output-enable at 1 until its last step:
    [q] stays 0, the falling edge of [le] captures [0x5678], and the last
    step shows the live input. *)
Example sim_latch_outputs :
  map (fun n =>
         let m := TransparentLatch.run (TransparentLatch.elaborate Sim.latch)
                    (take n Sim.latch_process) in
         (TransparentLatch.q (TransparentLatch.self m),
          TransparentLatch.internal_reg m))
      [1; 2; 3; 4; 5; 6; 7]%nat
  = [(0, 0); (0, 0); (0, 0); (0, 0x5678); (0, 0x5678); (0, 0x5678);
     (0x1234, 0x5678)].
Proof. reflexivity. Qed.

End Scenarios.

(** ** Instances on the devices of the [sim] methods *)

Section Instances.

Lemma write_then_read_witness :
  SRam.data_out
    (SRam.step (SRam.step Sim.mem (SRam.Stimulus 0 0x1111 1 1))
               (SRam.Stimulus 0 0 0 1)) = 0x1111
  /\ EEProm.io_out
       (EEProm.step (EEProm.step Sim.rom (EEProm.Stimulus 0 0x1111 1 1))
                    (EEProm.Stimulus 0 0 0 1)) = 0x1111.
Proof.
  apply (write_then_read Sim.mem Sim.rom 0 0x1111 1 0);
    first [reflexivity | simpl; lia].
Defined.



Lemma write_leaves_other_cells_witness :
  (SRam.__mem (SRam.step Sim.mem (SRam.Stimulus 0 0x1111 1 1)) !! Z.to_nat 0
     = Some (eq_ (SRam.data_bits Sim.mem) 0x1111)
   /\ SRam.__mem (SRam.step Sim.mem (SRam.Stimulus 0 0x1111 1 1)) !! Z.to_nat 1
     = SRam.__mem Sim.mem !! Z.to_nat 1)
  /\ (EEProm.__mem (EEProm.step Sim.rom (EEProm.Stimulus 0 0x1111 1 1)) !! Z.to_nat 0
        = Some (eq_ (EEProm.io_bits Sim.rom) 0x1111)
      /\ EEProm.__mem (EEProm.step Sim.rom (EEProm.Stimulus 0 0x1111 1 1)) !! Z.to_nat 1
        = EEProm.__mem Sim.rom !! Z.to_nat 1).
Proof.
  apply (write_leaves_other_cells Sim.mem Sim.rom 0 1 0x1111 1);
    first [reflexivity | simpl; lia].
Defined.



Lemma ram_eeprom_same_behaviour_witness :
  EEProm.run Sim.rom (map rename Sim.mem_process)
    = as_EEProm (SRam.run Sim.mem Sim.mem_process)
  /\ EEProm.__mem (EEProm.run Sim.rom (map rename Sim.mem_process))
    = SRam.__mem (SRam.run Sim.mem Sim.mem_process)
  /\ EEProm.io_out (EEProm.run Sim.rom (map rename Sim.mem_process))
    = SRam.data_out (SRam.run Sim.mem Sim.mem_process).
Proof.
  apply (ram_eeprom_same_behaviour 16 4 Sim.mem Sim.rom Sim.mem_process);
    reflexivity.
Defined.

Lemma unwritten_reads_zero_witness :
  SRam_written 3 Sim.mem [SRam.Stimulus 0 5 0 1; SRam.Stimulus 3 0 0 1] = false
  /\ SRam.data_out
       (SRam.run Sim.mem [SRam.Stimulus 0 5 0 1; SRam.Stimulus 3 0 0 1]) = 0
  /\ EEProm.io_out
       (EEProm.run Sim.rom [EEProm.Stimulus 0 5 0 1; EEProm.Stimulus 3 0 0 1]) = 0.
Proof.
  split; [reflexivity |].
  destruct (unwritten_reads_zero 16 4 16 3 Sim.mem Sim.rom Sim.latch
              [SRam.Stimulus 0 5 0 1; SRam.Stimulus 3 0 0 1]
              [EEProm.Stimulus 0 5 0 1; EEProm.Stimulus 3 0 0 1]
              eq_refl eq_refl eq_refl)
    as ([_ Hm] & [_ Hr] & _).
  - simpl; lia.
  - split; [apply Hm | apply Hr]; reflexivity.
Defined.


End Instances.

(** * Further properties of the devices *)

(** ** Widths are kept *)

Section Widths.

Lemma SRam_run_bits (tr : list SRam.stimulus) (m : SRam.t) :
  SRam.data_bits (SRam.run m tr) = SRam.data_bits m
  /\ SRam.addr_bits (SRam.run m tr) = SRam.addr_bits m.
Proof.
  revert m. induction tr as [| i tr IH]; intros m; [now split |].
  cbn [SRam.run fold_left]. fold (SRam.run (SRam.step m i) tr).
  destruct (IH (SRam.step m i)) as [-> ->].
  destruct (SRam_step_ports m i) as (_ & _ & _ & _ & Hd & Ha). now split.
Qed.

Lemma SRam_in_widths (ceiling db ab : Z) (m : SRam.t) (tr : list SRam.stimulus) :
  SRam.init_with ceiling db ab = Ok m ->
  Z.of_nat (length (SRam.__mem (SRam.run m tr))) = 2 ^ ab
  /\ Forall (fun c => 0 <= c < 2 ^ db) (SRam.__mem (SRam.run m tr))
  /\ 0 <= SRam.data_out (SRam.run m tr) < 2 ^ db
  /\ 0 <= SRam.addr (SRam.run m tr) < 2 ^ ab.
Proof.
  intros Hinit. pose proof (SRam_init_wf _ _ _ _ Hinit) as Hwf.
  apply (SRam_run_wf tr) in Hwf.
  destruct (SRam_run_bits tr m) as [Hd Ha].
  assert (SRam.data_bits m = db /\ SRam.addr_bits m = ab) as [Hdb Hab].
  { revert Hinit. unfold SRam.init_with, py_assert.
    destruct (db >? 0), (ab >? 0), (ab <=? ceiling); try discriminate.
    now intros [= <-]. }
  apply SRam_wf_spec in Hwf as (_ & Hpos & Haddr & _ & Hout & _ & _ & Hlen & Hall).
  rewrite Hd, Hdb in *. rewrite Ha, Hab in *.
  assert (0 < 2 ^ ab) by (apply Z.pow_pos_nonneg; lia).
  repeat apply conj; try lia.
  apply Forall_forall. intros c Hc%list_elem_of_In.
  rewrite forallb_forall in Hall. specialize (Hall c Hc).
  apply andb_true_iff in Hall as [H1 H2]. lia.
Qed.

(** However a memory is driven, it keeps [2 ^ addr_bits] cells, every cell
    and the output stay below [2 ^ data_bits], and the address port stays
    below [2 ^ addr_bits]; for [SRam.py], [sram.py] and [eeprom.py]. *)
Theorem memory_stays_in_widths (ceiling db ab : Z) (m : SRam.t) (r : EEProm.t)
    (tr : list SRam.stimulus) (tr' : list EEProm.stimulus) :
  SRam.init_with ceiling db ab = Ok m -> EEProm.__init__ db ab = Ok r ->
  (Z.of_nat (length (SRam.__mem (SRam.run m tr))) = 2 ^ ab
   /\ Forall (fun c => 0 <= c < 2 ^ db) (SRam.__mem (SRam.run m tr))
   /\ 0 <= SRam.data_out (SRam.run m tr) < 2 ^ db
   /\ 0 <= SRam.addr (SRam.run m tr) < 2 ^ ab)
  /\ (Z.of_nat (length (EEProm.__mem (EEProm.run r tr'))) = 2 ^ ab
      /\ Forall (fun c => 0 <= c < 2 ^ db) (EEProm.__mem (EEProm.run r tr'))
      /\ 0 <= EEProm.io_out (EEProm.run r tr') < 2 ^ db
      /\ 0 <= EEProm.a (EEProm.run r tr') < 2 ^ ab).
Proof.
  intros Hm Hr. split; [now apply (SRam_in_widths ceiling) |].
  rewrite as_EEProm_init in Hr.
  destruct (SRam.__init__ db ab) as [m' |] eqn:Hm'; [| discriminate].
  injection Hr as <-. rewrite as_EEProm_unrename_run, as_SRam_as_EEProm.
  exact (SRam_in_widths 32 db ab m' (map unrename tr') Hm').
Qed.

Lemma latch_run_bits (tr : list TransparentLatch.stimulus)
    (m : TransparentLatch.module) :
  TransparentLatch.bits (TransparentLatch.self (TransparentLatch.run m tr))
  = TransparentLatch.bits (TransparentLatch.self m).
Proof.
  revert m. induction tr as [| i tr IH]; intros m; [reflexivity |].
  cbn [TransparentLatch.run fold_left].
  fold (TransparentLatch.run (TransparentLatch.step m i) tr). rewrite IH.
  now destruct (latch_step_ports m i) as (_ & _ & _ & ->).
Qed.

(** However a latch is driven, its output and its register stay below
    [2 ^ bits]. *)
Theorem latch_stays_in_width (b : Z) (l : TransparentLatch.t)
    (tr : list TransparentLatch.stimulus) :
  TransparentLatch.__init__ b = Ok l ->
  0 <= TransparentLatch.q
         (TransparentLatch.self
            (TransparentLatch.run (TransparentLatch.elaborate l) tr)) < 2 ^ b
  /\ 0 <= TransparentLatch.internal_reg
            (TransparentLatch.run (TransparentLatch.elaborate l) tr) < 2 ^ b.
Proof.
  intros Hl. pose proof (latch_init_wf b l Hl) as Hwf.
  apply (latch_run_wf tr) in Hwf.
  pose proof (latch_run_bits tr (TransparentLatch.elaborate l)) as Hb.
  assert (TransparentLatch.bits
            (TransparentLatch.self (TransparentLatch.elaborate l)) = b) as Hb0.
  { revert Hl. unfold TransparentLatch.__init__, py_assert.
    destruct (b >? 0); [| discriminate]. now intros [= <-]. }
  apply latch_wf_spec in Hwf as (_ & _ & Hq & _ & _ & Hreg).
  rewrite Hb, Hb0 in *. now split.
Qed.

End Widths.

(** ** A step with unchanged inputs changes nothing *)

Section Settled.

Lemma SRam_step_settled (m : SRam.t) (i : SRam.stimulus) :
  SRam.step (SRam.step m i) i = SRam.step m i.
Proof.
  unfold SRam.step.
  destruct (fires pos (SRam._we m) _);
    cbn -[fires eq_ truthy inv Array_get Array_set];
    rewrite fires_same; reflexivity.
Qed.

Lemma latch_step_settled (m : TransparentLatch.module)
    (i : TransparentLatch.stimulus) :
  TransparentLatch.step (TransparentLatch.step m i) i = TransparentLatch.step m i.
Proof.
  unfold TransparentLatch.step.
  destruct (fires neg (TransparentLatch.le (TransparentLatch.self m)) _);
    cbn -[fires eq_ truthy inv Mux];
    rewrite fires_same; reflexivity.
Qed.

(** Stepping a device again with the inputs it already has leaves its
    whole state as it is: a delay without a new assignment commits nothing
    and moves no output; for the memories and for the latch. *)
Theorem step_settled (m : SRam.t) (i : SRam.stimulus)
    (r : EEProm.t) (j : EEProm.stimulus)
    (l : TransparentLatch.module) (k : TransparentLatch.stimulus) :
  SRam.step (SRam.step m i) i = SRam.step m i
  /\ EEProm.step (EEProm.step r j) j = EEProm.step r j
  /\ TransparentLatch.step (TransparentLatch.step l k) k
     = TransparentLatch.step l k.
Proof.
  split; [apply SRam_step_settled | split; [| apply latch_step_settled]].
  rewrite (EEProm_step_as_SRam r j), EEProm_step_as_SRam, as_SRam_as_EEProm.
  now rewrite SRam_step_settled.
Qed.

End Settled.

(** ** A written cell is kept until it is written again *)

Section Retention.

(** A step whose stimulus is inside the widths, spelled out. *)
Lemma SRam_step_small (db ab a v oe we : Z) (m : SRam.t) :
  SRam.wf m = true -> SRam.data_bits m = db -> SRam.addr_bits m = ab ->
  0 <= a < 2 ^ ab -> 0 <= v < 2 ^ db -> 0 <= oe < 2 -> 0 <= we < 2 ->
  SRam.wf (SRam.step m (SRam.Stimulus a v oe we)) = true
  /\ SRam.data_bits (SRam.step m (SRam.Stimulus a v oe we)) = db
  /\ SRam.addr_bits (SRam.step m (SRam.Stimulus a v oe we)) = ab
  /\ SRam._we (SRam.step m (SRam.Stimulus a v oe we)) = we
  /\ SRam.__mem (SRam.step m (SRam.Stimulus a v oe we))
     = (if (SRam._we m =? 0) && (we =? 1)
        then <[Z.to_nat a := v]> (SRam.__mem m) else SRam.__mem m)
  /\ SRam.data_out (SRam.step m (SRam.Stimulus a v oe we))
     = (if (oe =? 0) && (we =? 1)
        then Array_get (SRam.__mem (SRam.step m (SRam.Stimulus a v oe we))) a
        else 0).
Proof.
  intros Hwf Hdb Hab Ha Hv Hoe Hwe.
  pose proof (SRam_step_wf m (SRam.Stimulus a v oe we) Hwf) as Hwf'.
  pose proof (SRam_step_mem m (SRam.Stimulus a v oe we) Hwf) as Hmem.
  pose proof (SRam_step_out m (SRam.Stimulus a v oe we) Hwf) as Hout.
  destruct (SRam_step_ports m (SRam.Stimulus a v oe we))
    as (Hp1 & _ & Hp3 & Hp4 & Hp5 & Hp6).
  apply SRam_wf_spec in Hwf as (Hd & Hb & _).
  cbn [SRam.to_addr SRam.to_data_in SRam.to_oe SRam.to_we] in *.
  rewrite Hdb, Hab in *.
  rewrite (eq__small ab a) in * by lia. rewrite (eq__small db v) in * by lia.
  rewrite (eq__small 1 oe) in * by (change (2 ^ 1) with 2; lia).
  rewrite (eq__small 1 we) in * by (change (2 ^ 1) with 2; lia).
  rewrite Hp1, Hp3, Hp4 in Hout.
  repeat apply conj; assumption.
Qed.

Lemma SRam_written_cons (a : Z) (m : SRam.t) (i : SRam.stimulus)
    (tr : list SRam.stimulus) :
  SRam.wf m = true ->
  SRam_written a m (i :: tr)
  = ((SRam._we m =? 0) && (SRam._we (SRam.step m i) =? 1)
     && (SRam.addr (SRam.step m i) =? a))
    || SRam_written a (SRam.step m i) tr.
Proof.
  intros Hwf. cbn [SRam_written]. f_equal. f_equal.
  - destruct (SRam_step_ports m i) as (_ & _ & _ & -> & _).
    apply SRam_wf_spec in Hwf as (_ & _ & _ & _ & _ & _ & Hwe & _).
    cbn [SRam.drive SRam._we]. apply fires_pos; [assumption |].
    apply (eq__range 1). lia.
  - now destruct (SRam_step_ports m i) as (-> & _).
Qed.

(** The output at the end of a trace that has at least one step. *)
Lemma SRam_run_output (tr : list SRam.stimulus) (m : SRam.t) :
  SRam.wf m = true -> tr <> [] ->
  if (SRam._oe (SRam.run m tr) =? 0) && (SRam._we (SRam.run m tr) =? 1)
  then SRam.__mem (SRam.run m tr) !! Z.to_nat (SRam.addr (SRam.run m tr))
       = Some (SRam.data_out (SRam.run m tr))
  else SRam.data_out (SRam.run m tr) = 0.
Proof.
  intros Hwf Hne. destruct tr as [| i tr _] using rev_ind; [now destruct Hne |].
  unfold SRam.run. rewrite fold_left_app. cbn [fold_left].
  fold (SRam.run m tr). apply SRam_output. now apply SRam_run_wf.
Qed.

Lemma SRam_retention (m : SRam.t) (a v oe : Z) (tr : list SRam.stimulus) :
  SRam.wf m = true -> SRam._we m = 0 ->
  0 <= a < 2 ^ SRam.addr_bits m -> 0 <= v < 2 ^ SRam.data_bits m ->
  SRam_written a (SRam.step m (SRam.Stimulus a v oe 1)) tr = false ->
  SRam.__mem (SRam.run m (SRam.Stimulus a v oe 1 :: tr)) !! Z.to_nat a = Some v
  /\ (SRam._oe (SRam.run m (SRam.Stimulus a v oe 1 :: tr)) = 0 ->
      SRam._we (SRam.run m (SRam.Stimulus a v oe 1 :: tr)) = 1 ->
      SRam.addr (SRam.run m (SRam.Stimulus a v oe 1 :: tr)) = a ->
      SRam.data_out (SRam.run m (SRam.Stimulus a v oe 1 :: tr)) = v).
Proof.
  intros Hwf Hwe Ha Hv Hnw.
  assert (SRam.__mem (SRam.run m (SRam.Stimulus a v oe 1 :: tr)) !! Z.to_nat a
          = Some v) as Hcell.
  { cbn [SRam.run fold_left]. fold (SRam.run (SRam.step m (SRam.Stimulus a v oe 1)) tr).
    rewrite SRam_unwritten_cell by (try assumption; try lia; now apply SRam_step_wf).
    rewrite SRam_step_mem, Hwe by assumption.
    cbn [SRam.to_we SRam.to_addr SRam.to_data_in].
    change (eq_ 1 1) with 1. cbn [Z.eqb Pos.eqb andb].
    pose proof Hwf as (Hd & Hb & _ & _ & _ & _ & _ & Hlen & _)%SRam_wf_spec.
    rewrite !eq__small by lia. apply list_lookup_insert_eq. lia. }
  split; [exact Hcell |]. intros Hoe Hwe' Haddr.
  pose proof (SRam_run_output (SRam.Stimulus a v oe 1 :: tr) m Hwf ltac:(discriminate))
    as Hout.
  rewrite Hoe, Hwe', Haddr in Hout. cbn [Z.eqb Pos.eqb andb] in Hout. congruence.
Qed.

(** Once a value is written at an address, the cell holds it through any
    steps that commit no write there, and a read of the address at the end
    shows it; for the RAM and for the EEPROM. *)
Theorem written_cell_is_kept (m : SRam.t) (r : EEProm.t) (a v oe : Z)
    (tr : list SRam.stimulus) (tr' : list EEProm.stimulus) :
  SRam.wf m = true -> SRam._we m = 0 ->
  0 <= a < 2 ^ SRam.addr_bits m -> 0 <= v < 2 ^ SRam.data_bits m ->
  SRam_written a (SRam.step m (SRam.Stimulus a v oe 1)) tr = false ->
  EEProm.wf r = true -> EEProm._we r = 0 ->
  0 <= a < 2 ^ EEProm.a_bits r -> 0 <= v < 2 ^ EEProm.io_bits r ->
  EEProm_written a (EEProm.step r (EEProm.Stimulus a v oe 1)) tr' = false ->
  (SRam.__mem (SRam.run m (SRam.Stimulus a v oe 1 :: tr)) !! Z.to_nat a = Some v
   /\ (SRam._oe (SRam.run m (SRam.Stimulus a v oe 1 :: tr)) = 0 ->
       SRam._we (SRam.run m (SRam.Stimulus a v oe 1 :: tr)) = 1 ->
       SRam.addr (SRam.run m (SRam.Stimulus a v oe 1 :: tr)) = a ->
       SRam.data_out (SRam.run m (SRam.Stimulus a v oe 1 :: tr)) = v))
  /\ (EEProm.__mem (EEProm.run r (EEProm.Stimulus a v oe 1 :: tr')) !! Z.to_nat a
        = Some v
      /\ (EEProm._oe (EEProm.run r (EEProm.Stimulus a v oe 1 :: tr')) = 0 ->
          EEProm._we (EEProm.run r (EEProm.Stimulus a v oe 1 :: tr')) = 1 ->
          EEProm.a (EEProm.run r (EEProm.Stimulus a v oe 1 :: tr')) = a ->
          EEProm.io_out (EEProm.run r (EEProm.Stimulus a v oe 1 :: tr')) = v)).
Proof.
  intros Hm Hwe Ha Hv Hnw Hr Hwe' Ha' Hv' Hnw'.
  split; [now apply SRam_retention |].
  rewrite as_EEProm_unrename_run.
  rewrite EEProm_written_as_SRam, EEProm_step_as_SRam, as_SRam_as_EEProm in Hnw'.
  exact (SRam_retention (as_SRam r) a v oe (map unrename tr') Hr Hwe' Ha' Hv' Hnw').
Qed.

End Retention.

(** ** The test bench of [sim] reads back what it wrote *)

Section TestBench.

Lemma SRam_test_bench (m : SRam.t) (a0 v0 a1 v1 : Z) :
  SRam.wf m = true ->
  0 <= a0 < 2 ^ SRam.addr_bits m -> 0 <= a1 < 2 ^ SRam.addr_bits m ->
  a0 <> a1 ->
  0 <= v0 < 2 ^ SRam.data_bits m -> 0 <= v1 < 2 ^ SRam.data_bits m ->
  map (fun n => SRam.data_out
                  (SRam.run m (take n (mem_process_at a0 v0 a1 v1))))
      [5; 6; 7; 8]%nat
  = [v0; 0; v1; 0].
Proof.
  intros Hwf Ha0 Ha1 Hne Hv0 Hv1.
  pose proof Hwf as (Hd & Hb & _ & _ & _ & _ & _ & Hlen & _)%SRam_wf_spec.
  remember (SRam.data_bits m) as db eqn:Hdb. symmetry in Hdb.
  remember (SRam.addr_bits m) as ab eqn:Hab. symmetry in Hab.
  assert (0 <= 0 < 2 ^ db) as Hz by (split; [lia | apply Z.pow_pos_nonneg; lia]).
  cbn [map take mem_process_at SRam.run fold_left].
  destruct (SRam_step_small db ab a0 v0 1 0 m Hwf Hdb Hab)
    as (Hwf1 & Hdb1 & Hab1 & Hwe1 & Hmem1 & _); try lia.
  remember (SRam.step m (SRam.Stimulus a0 v0 1 0)) as m1 eqn:E1. clear E1.
  rewrite andb_false_r in Hmem1.
  destruct (SRam_step_small db ab a0 v0 1 1 m1 Hwf1 Hdb1 Hab1)
    as (Hwf2 & Hdb2 & Hab2 & Hwe2 & Hmem2 & _); try lia.
  remember (SRam.step m1 (SRam.Stimulus a0 v0 1 1)) as m2 eqn:E2. clear E2.
  rewrite Hwe1, Hmem1 in Hmem2. cbn [Z.eqb Pos.eqb andb] in Hmem2.
  destruct (SRam_step_small db ab a1 v1 1 0 m2 Hwf2 Hdb2 Hab2)
    as (Hwf3 & Hdb3 & Hab3 & Hwe3 & Hmem3 & _); try lia.
  remember (SRam.step m2 (SRam.Stimulus a1 v1 1 0)) as m3 eqn:E3. clear E3.
  rewrite andb_false_r, Hmem2 in Hmem3.
  destruct (SRam_step_small db ab a1 v1 1 1 m3 Hwf3 Hdb3 Hab3)
    as (Hwf4 & Hdb4 & Hab4 & Hwe4 & Hmem4 & _); try lia.
  remember (SRam.step m3 (SRam.Stimulus a1 v1 1 1)) as m4 eqn:E4. clear E4.
  rewrite Hwe3, Hmem3 in Hmem4. cbn [Z.eqb Pos.eqb andb] in Hmem4.
  destruct (SRam_step_small db ab a0 0 0 1 m4 Hwf4 Hdb4 Hab4)
    as (Hwf5 & Hdb5 & Hab5 & Hwe5 & Hmem5 & Hout5); try lia.
  remember (SRam.step m4 (SRam.Stimulus a0 0 0 1)) as m5 eqn:E5. clear E5.
  rewrite Hwe4, Hmem4 in Hmem5. cbn [Z.eqb Pos.eqb andb] in Hmem5, Hout5.
  destruct (SRam_step_small db ab a0 0 1 1 m5 Hwf5 Hdb5 Hab5)
    as (Hwf6 & Hdb6 & Hab6 & Hwe6 & Hmem6 & Hout6); try lia.
  remember (SRam.step m5 (SRam.Stimulus a0 0 1 1)) as m6 eqn:E6. clear E6.
  rewrite Hwe5, Hmem5 in Hmem6. cbn [Z.eqb Pos.eqb andb] in Hmem6, Hout6.
  destruct (SRam_step_small db ab a1 0 0 1 m6 Hwf6 Hdb6 Hab6)
    as (Hwf7 & Hdb7 & Hab7 & Hwe7 & Hmem7 & Hout7); try lia.
  remember (SRam.step m6 (SRam.Stimulus a1 0 0 1)) as m7 eqn:E7. clear E7.
  rewrite Hwe6, Hmem6 in Hmem7. cbn [Z.eqb Pos.eqb andb] in Hmem7, Hout7.
  destruct (SRam_step_small db ab a1 0 1 1 m7 Hwf7 Hdb7 Hab7)
    as (_ & _ & _ & _ & _ & Hout8); try lia.
  cbn [Z.eqb Pos.eqb andb] in Hout8.
  rewrite Hout5, Hout6, Hout7, Hout8, Hmem5, Hmem7.
  unfold Array_get.
  rewrite list_lookup_insert_ne by lia.
  rewrite list_lookup_insert_eq by lia.
  rewrite list_lookup_insert_eq by (rewrite length_insert; lia).
  reflexivity.
Qed.

(** From any state of a memory, for any two different addresses and any two
    values inside the widths, the read-backs of the [sim] test bench show
    the first value, then 0 while output-enable is 1, then the second value,
    then 0; for the RAM and, with its ports renamed, for the EEPROM. *)
Theorem test_bench_reads_back (m : SRam.t) (r : EEProm.t) (a0 v0 a1 v1 : Z) :
  SRam.wf m = true ->
  0 <= a0 < 2 ^ SRam.addr_bits m -> 0 <= a1 < 2 ^ SRam.addr_bits m ->
  0 <= v0 < 2 ^ SRam.data_bits m -> 0 <= v1 < 2 ^ SRam.data_bits m ->
  EEProm.wf r = true ->
  0 <= a0 < 2 ^ EEProm.a_bits r -> 0 <= a1 < 2 ^ EEProm.a_bits r ->
  0 <= v0 < 2 ^ EEProm.io_bits r -> 0 <= v1 < 2 ^ EEProm.io_bits r ->
  a0 <> a1 ->
  map (fun n => SRam.data_out
                  (SRam.run m (take n (mem_process_at a0 v0 a1 v1))))
      [5; 6; 7; 8]%nat
  = [v0; 0; v1; 0]
  /\ map (fun n => EEProm.io_out
                     (EEProm.run r
                        (map rename (take n (mem_process_at a0 v0 a1 v1)))))
         [5; 6; 7; 8]%nat
     = [v0; 0; v1; 0].
Proof.
  intros Hm Ha0 Ha1 Hv0 Hv1 Hr Hb0 Hb1 Hw0 Hw1 Hne.
  split; [now apply SRam_test_bench |].
  rewrite <- (SRam_test_bench (as_SRam r) a0 v0 a1 v1 Hr Hb0 Hb1 Hne Hw0 Hw1).
  apply map_ext. intros n.
  rewrite <- (as_EEProm_as_SRam r) at 1. now rewrite <- as_EEProm_run.
Qed.

End TestBench.

(** ** The latch holds what it captured *)

Section LatchHold.

Import TransparentLatch.

Lemma latch_run_output (tr : list stimulus) (m : module) :
  wf m = true -> tr <> [] ->
  q (self (run m tr)) =
    if _oe (self (run m tr)) =? 1 then 0
    else if le (self (run m tr)) =? 1 then d (self (run m tr))
    else internal_reg (run m tr).
Proof.
  intros Hwf Hne. destruct tr as [| i tr _] using rev_ind; [now destruct Hne |].
  unfold run. rewrite fold_left_app. cbn [fold_left]. fold (run m tr).
  apply latch_step_q. now apply latch_run_wf.
Qed.

(** After latch-enable fell from 1 to 0 with [v] on the data input, the
    register is [v] for as long as latch-enable stays 0, whatever is then
    put on the data input, and the output shows [v] whenever output-enable
    is 0. *)
Theorem latch_holds_capture (m : module) (v oe : Z) (tr : list stimulus) :
  wf m = true -> le (self m) = 1 ->
  0 <= v < 2 ^ bits (self m) ->
  Forall (fun i => eq_ 1 (to_le i) = 0) tr ->
  internal_reg (run m (Stimulus v 0 oe :: tr)) = v
  /\ (_oe (self (run m (Stimulus v 0 oe :: tr))) = 0 ->
      q (self (run m (Stimulus v 0 oe :: tr))) = v).
Proof.
  intros Hwf Hle Hv Hall.
  pose proof (latch_step_wf m (Stimulus v 0 oe) Hwf) as Hwf1.
  pose proof (latch_step_reg m (Stimulus v 0 oe) Hwf) as Hreg.
  destruct (latch_step_ports m (Stimulus v 0 oe)) as (_ & Hle1 & _).
  cbn [to_le to_d] in Hreg, Hle1. change (eq_ 1 0) with 0 in Hreg, Hle1.
  rewrite Hle in Hreg. cbn [Z.eqb Pos.eqb andb] in Hreg.
  pose proof Hwf as (Hb & _)%latch_wf_spec.
  rewrite eq__small in Hreg by lia.
  destruct (latch_held_level tr (step m (Stimulus v 0 oe)) Hwf1) as [Hkeep Hlow].
  { now rewrite Hle1. }
  assert (internal_reg (run m (Stimulus v 0 oe :: tr)) = v) as Hfinal.
  { cbn [run fold_left]. fold (run (step m (Stimulus v 0 oe)) tr). congruence. }
  split; [exact Hfinal |]. intros Hoe.
  rewrite latch_run_output, Hoe, Hfinal by (try assumption; discriminate).
  cbn [run fold_left]. fold (run (step m (Stimulus v 0 oe)) tr).
  rewrite Hlow, Hle1. reflexivity.
Qed.

(** The two combinational assertions of [formal] hold in every state a
    freshly elaborated latch of any width can be driven to. *)
Theorem latch_formal_asserts_hold (b : Z) (l : t) (tr : list stimulus) :
  __init__ b = Ok l ->
  latch_formal_asserts (self (run (elaborate l) tr)) = true.
Proof.
  intros Hl. pose proof (latch_init_wf b l Hl) as Hwf.
  destruct tr as [| i tr _] using rev_ind.
  - revert Hl. unfold __init__, py_assert. destruct (b >? 0); [| discriminate].
    now intros [= <-].
  - pose proof (latch_run_wf (tr ++ [i]) _ Hwf) as Hwf'.
    pose proof (latch_run_output (tr ++ [i]) _ Hwf) as Hq.
    specialize (Hq ltac:(now destruct tr)).
    apply latch_wf_spec in Hwf' as (_ & _ & _ & Hle & Hoe & _).
    unfold latch_formal_asserts. rewrite Hq.
    assert (_oe (self (run (elaborate l) (tr ++ [i]))) = 0
            \/ _oe (self (run (elaborate l) (tr ++ [i]))) = 1) as [-> | ->] by lia;
      assert (le (self (run (elaborate l) (tr ++ [i]))) = 0
              \/ le (self (run (elaborate l) (tr ++ [i]))) = 1) as [-> | ->] by lia;
      cbn; try reflexivity; apply Z.eqb_refl.
Qed.

End LatchHold.

(** ** The two RAM constructors *)

Section Variants.

(** Every device [sram.py] builds, [SRam.py] builds too, and it is the same
    device; with the same data width [SRam.py] also accepts the address
    widths 17 to 32, which [sram.py] rejects. *)
Theorem sram_builds_a_subset (db ab : Z) (m : SRam.t) :
  sram.__init__ db ab = Ok m ->
  SRam.__init__ db ab = Ok m
  /\ (forall ab', 16 < ab' <= 32 ->
      sram.__init__ db ab' = Raise AssertionError
      /\ exists m', SRam.__init__ db ab' = Ok m').
Proof.
  unfold sram.__init__, SRam.__init__, SRam.init_with, py_assert.
  destruct (db >? 0); [| discriminate].
  destruct (ab >? 0); [| discriminate].
  destruct (Z.leb_spec ab 16); [| discriminate].
  intros Hm. split.
  - destruct (Z.leb_spec ab 32); [exact Hm | lia].
  - intros ab' Hab'.
    destruct (Z.gtb_spec ab' 0); [| lia].
    destruct (Z.leb_spec ab' 16); [lia |].
    destruct (Z.leb_spec ab' 32); [| lia].
    split; [reflexivity | eexists; reflexivity].
Qed.

End Variants.

(** ** [util.main] and the scripts *)

Section Scripts.

(** A version that passes the guard is one on which the files parse. *)
Lemma import_accepted (major minor micro : Z) :
  util.tuple_lt [major; minor; micro] [3; 9] = false ->
  util.import_ major minor micro = ([], None).
Proof.
  intros Hver. unfold util.import_. rewrite Hver.
  assert (util.tuple_lt [major; minor; micro] [3; 6] = false) as ->;
    [| reflexivity].
  revert Hver. cbn [util.tuple_lt].
  destruct (Z.eqb_spec major 3) as [-> | Hmaj]; [| exact (fun H => H)].
  destruct (Z.eqb_spec minor 9) as [-> | Hmin]; [reflexivity |].
  destruct (Z.eqb_spec minor 6) as [-> | Hmin6]; [reflexivity |].
  rewrite !Z.ltb_ge. lia.
Qed.

Lemma main_args (convert : design -> result string) (argv0 arg : string)
    (rest : list string) (c : util.cls) (filename : string) :
  util.main convert argv0 (arg :: rest) c filename =
    if negb (String.eqb arg "sim") && negb (String.eqb arg "gen")
    then ([util.Print ("Usage: python " ++ argv0 ++ " sim|gen")%string],
          Some (util.SystemExit 1))
    else if String.eqb arg "sim" then util.sim c
    else match util.formal c with
         | Raise e => ([], Some (util.Uncaught e))
         | Ok None => ([], Some util.TypeError)
         | Ok (Some d) =>
             match convert d with
             | Raise e => ([], Some (util.Uncaught e))
             | Ok output => ([util.Write filename output], None)
             end
         end.
Proof. reflexivity. Qed.

(** Without an argument, or with a first argument other than [sim] and
    [gen], [main] prints the usage line and exits with status 1, whatever
    the class: neither [sim] nor [formal] is called and no file is written. *)
Theorem main_usage (convert : design -> result string) (argv0 : string)
    (args : list string) (c : util.cls) (filename : string) :
  hd_error args <> Some "sim"%string -> hd_error args <> Some "gen"%string ->
  util.main convert argv0 args c filename
  = ([util.Print ("Usage: python " ++ argv0 ++ " sim|gen")%string],
     Some (util.SystemExit 1)).
Proof.
  intros Hsim Hgen. destruct args as [| arg rest]; [reflexivity |].
  rewrite main_args.
  destruct (String.eqb_spec arg "sim") as [-> | _]; [now destruct Hsim |].
  destruct (String.eqb_spec arg "gen") as [-> | _]; [now destruct Hgen |].
  reflexivity.
Qed.

(** With [gen], the only thing [main] can do to the outside is write the
    file it was given: it does so exactly when [formal] returns a design and
    the conversion succeeds, the content is the converted design, and in
    every other case it stops with an error and writes nothing. *)
Theorem main_gen (convert : design -> result string) (argv0 : string)
    (rest : list string) (c : util.cls) (filename : string) :
  (forall d output,
      util.formal c = Ok (Some d) -> convert d = Ok output ->
      util.main convert argv0 ("gen"%string :: rest) c filename
      = ([util.Write filename output], None))
  /\ ((forall d output,
          ~ (util.formal c = Ok (Some d) /\ convert d = Ok output)) ->
      exists s, util.main convert argv0 ("gen"%string :: rest) c filename
                = ([], Some s)).
Proof.
  rewrite main_args. cbn [String.eqb Ascii.eqb Bool.eqb negb andb].
  split.
  - intros d output -> ->. reflexivity.
  - intros Hno. destruct (util.formal c) as [[d |] | e]; try (eexists; reflexivity).
    destruct (convert d) as [output | e] eqn:Hc; try (eexists; reflexivity).
    now destruct (Hno d output).
Qed.

(** [gen] on a device file whose [formal] states no property writes no
    netlist: the script stops with the [AssertionError] of [assert False],
    or, for [SRam.py], with the [NameError] of the unbound [EEProm]. *)
Theorem script_gen_without_properties (major minor micro : Z)
    (convert : design -> result string) (simulate : util.run)
    (argv0 : string) (rest : list string) (v : variant) :
  util.tuple_lt [major; minor; micro] [3; 9] = false ->
  formal_implemented v = false ->
  script major minor micro convert simulate argv0 ("gen"%string :: rest) v
  = ([], Some (util.Uncaught
                 (match v with
                  | SRam_py => NameError "EEProm"
                  | _ => AssertionError
                  end))).
Proof.
  intros Hver Hv. unfold script. rewrite (import_accepted _ _ _ Hver), main_args.
  destruct v; try discriminate Hv; reflexivity.
Qed.

(** [gen] on [TransparentLatch.py] writes the converted design, with its
    four properties and the four ports of the latch, to
    [out/TransparentLatch.il] and nothing else. *)
Theorem script_gen_latch (major minor micro : Z)
    (convert : design -> result string) (simulate : util.run)
    (argv0 output : string) (rest : list string) :
  util.tuple_lt [major; minor; micro] [3; 9] = false ->
  convert (Design ["latch"%string] [Cover; Assert; Assert; Assert]
                  TransparentLatch.ports) = Ok output ->
  script major minor micro convert simulate argv0 ("gen"%string :: rest)
         TransparentLatch_py
  = ([util.Write "out/TransparentLatch.il" output], None).
Proof.
  intros Hver Hc. unfold script. rewrite (import_accepted _ _ _ Hver), main_args.
  cbn. now rewrite Hc.
Qed.

(** The guard on the Python version lets a script through exactly from 3.9
    on, whatever the micro version; on 3.6, 3.7 and 3.8 the script prints
    the requirement and exits with status 1 before [main] is reached; before
    3.6 the files do not parse and the script prints nothing at all. *)
Theorem script_version_guard (major minor micro : Z)
    (convert : design -> result string) (simulate : util.run)
    (argv0 : string) (args : list string) (v : variant) :
  (util.tuple_lt [major; minor; micro] [3; 9] = false
   <-> 3 < major \/ (major = 3 /\ 9 <= minor))
  /\ (3 < major \/ (major = 3 /\ 9 <= minor) ->
      script major minor micro convert simulate argv0 args v
      = util.main convert argv0 args (class_of simulate v) (filename_of v))
  /\ (major = 3 /\ 6 <= minor < 9 ->
      script major minor micro convert simulate argv0 args v
      = ([util.Print "Python 3.9 or higher is required."],
         Some (util.SystemExit 1)))
  /\ (major < 3 \/ (major = 3 /\ minor < 6) ->
      script major minor micro convert simulate argv0 args v
      = ([], Some util.SyntaxError)).
Proof.
  assert (forall bound,
            util.tuple_lt [major; minor; micro] [3; bound] = false
            <-> 3 < major \/ (major = 3 /\ bound <= minor)) as Hguard.
  { intros bound. cbn [util.tuple_lt].
    destruct (Z.eqb_spec major 3) as [-> | Hmaj].
    - destruct (Z.eqb_spec minor bound) as [-> | Hmin];
        [split; [lia | reflexivity] |].
      rewrite Z.ltb_ge. lia.
    - rewrite Z.ltb_ge. lia. }
  split; [exact (Hguard 9) | split; [| split]]; intros Hv; unfold script.
  - apply (Hguard 9) in Hv. rewrite (import_accepted _ _ _ Hv).
    unfold util.and_then. now destruct (util.main _ _ _ _ _).
  - unfold util.import_.
    destruct (util.tuple_lt [major; minor; micro] [3; 6]) eqn:H6.
    + assert (util.tuple_lt [major; minor; micro] [3; 6] = false) as Hno
        by (apply (Hguard 6); lia).
      congruence.
    + destruct (util.tuple_lt [major; minor; micro] [3; 9]) eqn:H9;
        [reflexivity |].
      apply (Hguard 9) in H9. lia.
  - unfold util.import_.
    destruct (util.tuple_lt [major; minor; micro] [3; 6]) eqn:H6;
      [reflexivity |].
    apply (Hguard 6) in H6. lia.
Qed.

(** With [sim], a script does what the [sim] of its class does and nothing
    more: [formal] is not called, so the unbound [EEProm] of [SRam.py] does
    not matter; for [transparent_latch.py] that is the [AssertionError] of
    [assert False]. *)
Theorem script_sim (major minor micro : Z)
    (convert : design -> result string) (simulate : util.run)
    (argv0 : string) (rest : list string) (v : variant) :
  util.tuple_lt [major; minor; micro] [3; 9] = false ->
  script major minor micro convert simulate argv0 ("sim"%string :: rest) v
  = match v with
    | transparent_latch_py => ([], Some (util.Uncaught AssertionError))
    | _ => simulate
    end.
Proof.
  intros Hver. unfold script. rewrite (import_accepted _ _ _ Hver), main_args.
  cbn [String.eqb Ascii.eqb Bool.eqb negb andb class_of util.sim util.and_then].
  destruct v; cbn; try reflexivity; now destruct simulate as [ev [s |]].
Qed.

End Scripts.

(** ** Instances of the further properties *)

Section FurtherInstances.

Lemma memory_stays_in_widths_witness :
  SRam.init_with 32 16 4 = Ok Sim.mem
  /\ 0 <= SRam.data_out (SRam.run Sim.mem Sim.mem_process) < 2 ^ 16
  /\ Z.of_nat (length (EEProm.__mem (EEProm.run Sim.rom (map rename Sim.mem_process))))
     = 2 ^ 4.
Proof.
  split; [reflexivity |].
  destruct (memory_stays_in_widths 32 16 4 Sim.mem Sim.rom Sim.mem_process
              (map rename Sim.mem_process) eq_refl eq_refl)
    as [(_ & _ & Hout & _) (Hlen & _)].
  split; [exact Hout | exact Hlen].
Defined.

Lemma latch_stays_in_width_witness :
  TransparentLatch.__init__ 16 = Ok Sim.latch
  /\ 0 <= TransparentLatch.internal_reg
            (TransparentLatch.run (TransparentLatch.elaborate Sim.latch)
               Sim.latch_process) < 2 ^ 16.
Proof.
  split; [reflexivity |].
  exact (proj2 (latch_stays_in_width 16 Sim.latch Sim.latch_process eq_refl)).
Defined.

Lemma written_cell_is_kept_witness :
  SRam_written 2 (SRam.step Sim.mem (SRam.Stimulus 2 7 1 1))
    [SRam.Stimulus 3 9 1 0; SRam.Stimulus 3 9 1 1; SRam.Stimulus 2 0 0 1] = false
  /\ SRam.data_out
       (SRam.run Sim.mem
          [SRam.Stimulus 2 7 1 1; SRam.Stimulus 3 9 1 0; SRam.Stimulus 3 9 1 1;
           SRam.Stimulus 2 0 0 1]) = 7
  /\ EEProm.io_out
       (EEProm.run Sim.rom
          [EEProm.Stimulus 2 7 1 1; EEProm.Stimulus 3 9 1 0;
           EEProm.Stimulus 3 9 1 1; EEProm.Stimulus 2 0 0 1]) = 7.
Proof.
  split; [reflexivity |].
  assert (0 <= 2 < 2 ^ 4) as Ha by (simpl; lia).
  assert (0 <= 7 < 2 ^ 16) as Hv by (simpl; lia).
  pose proof (written_cell_is_kept Sim.mem Sim.rom 2 7 1
                [SRam.Stimulus 3 9 1 0; SRam.Stimulus 3 9 1 1; SRam.Stimulus 2 0 0 1]
                [EEProm.Stimulus 3 9 1 0; EEProm.Stimulus 3 9 1 1;
                 EEProm.Stimulus 2 0 0 1]
                eq_refl eq_refl Ha Hv eq_refl eq_refl eq_refl Ha Hv eq_refl)
    as [[_ Hm] [_ Hr]].
  split; [apply Hm | apply Hr]; reflexivity.
Defined.

Lemma test_bench_reads_back_witness :
  map (fun n => SRam.data_out
                  (SRam.run Sim.mem (take n (mem_process_at 0 0x1111 1 0x2222))))
      [5; 6; 7; 8]%nat
  = [0x1111; 0; 0x2222; 0]
  /\ map (fun n => EEProm.io_out
                     (EEProm.run Sim.rom
                        (map rename (take n (mem_process_at 0 0x1111 1 0x2222)))))
         [5; 6; 7; 8]%nat
     = [0x1111; 0; 0x2222; 0].
Proof.
  apply (test_bench_reads_back Sim.mem Sim.rom 0 0x1111 1 0x2222);
    first [reflexivity | simpl; lia].
Defined.

Lemma latch_holds_capture_witness :
  TransparentLatch.q
    (TransparentLatch.self
       (TransparentLatch.run
          (TransparentLatch.step (TransparentLatch.elaborate Sim.latch)
             (TransparentLatch.Stimulus 0x5678 1 0))
          [TransparentLatch.Stimulus 0x5678 0 0;
           TransparentLatch.Stimulus 0x1234 0 0])) = 0x5678.
Proof.
  apply (latch_holds_capture
           (TransparentLatch.step (TransparentLatch.elaborate Sim.latch)
              (TransparentLatch.Stimulus 0x5678 1 0))
           0x5678 0 [TransparentLatch.Stimulus 0x1234 0 0]);
    first [reflexivity | simpl; lia | repeat constructor].
Defined.

Lemma latch_formal_asserts_hold_witness :
  latch_formal_asserts
    (TransparentLatch.self
       (TransparentLatch.run (TransparentLatch.elaborate Sim.latch)
          Sim.latch_process)) = true.
Proof.
  exact (latch_formal_asserts_hold 16 Sim.latch Sim.latch_process eq_refl).
Defined.

Lemma sram_builds_a_subset_witness :
  SRam.__init__ 16 4 = Ok Sim.mem
  /\ sram.__init__ 16 20 = Raise AssertionError.
Proof.
  destruct (sram_builds_a_subset 16 4 Sim.mem eq_refl) as [Hsame Hmore].
  split; [exact Hsame |].
  exact (proj1 (Hmore 20 ltac:(lia))).
Defined.

Lemma main_usage_witness :
  util.main (fun _ => Ok "netlist"%string) "sram.py" ["build"%string]
    (class_of ([], None) sram_py) (filename_of sram_py)
  = ([util.Print "Usage: python sram.py sim|gen"], Some (util.SystemExit 1)).
Proof.
  apply (main_usage (fun _ => Ok "netlist"%string) "sram.py" ["build"%string]);
    discriminate.
Defined.

Lemma script_gen_without_properties_witness :
  script 3 11 4 (fun _ => Ok "netlist"%string) ([], None) "SRam.py"
    ["gen"%string] SRam_py
  = ([], Some (util.Uncaught (NameError "EEProm"))).
Proof.
  apply (script_gen_without_properties 3 11 4 (fun _ => Ok "netlist"%string)
           ([], None) "SRam.py" [] SRam_py); reflexivity.
Defined.

Lemma script_gen_latch_witness :
  script 3 9 0 (fun _ => Ok "netlist"%string) ([], None) "TransparentLatch.py"
    ["gen"%string] TransparentLatch_py
  = ([util.Write "out/TransparentLatch.il" "netlist"], None).
Proof.
  apply (script_gen_latch 3 9 0 (fun _ => Ok "netlist"%string) ([], None)
           "TransparentLatch.py" "netlist" []); reflexivity.
Defined.

Lemma script_sim_witness :
  script 3 12 1 (fun _ => Ok "netlist"%string)
    ([util.Write "out/SRam.vcd" "trace"], None) "SRam.py" ["sim"%string] SRam_py
  = ([util.Write "out/SRam.vcd" "trace"], None).
Proof.
  apply (script_sim 3 12 1 (fun _ => Ok "netlist"%string)
           ([util.Write "out/SRam.vcd" "trace"], None) "SRam.py" [] SRam_py).
  reflexivity.
Defined.

End FurtherInstances.
